(** * The icon scripts of devworx8

    A shallow embedding of [scripts/make-round-icon.py] and
    [scripts/generate-app-icon.py].  Both scripts are straight-line
    sequences of calls into the Pillow imaging library followed by file
    saves.  The embedding has these layers:

    - [Pillow]: rasters and the drawing primitives the scripts call;
    - [OS]: the file system and the standard output, as a state-and-
      exception monad, with [Image.open], [Image.save], [os.path.exists],
      [os.makedirs] and [ImageFont.truetype];
    - [MakeRoundIcon]: the round-icon script;
    - [GenerateAppIcon]: the generator script;
    - [Entry]: how the system starts either script.

    The definitions of these layers come first; the properties of the
    scripts follow, in modules that mirror them. *)

From Stdlib Require Import ZArith QArith Lia.
From stdpp Require Import gmap strings.

Local Open Scope Z_scope.

(** ** Exceptions, results and the script monad *)

Inductive exn :=
| FileNotFoundError
| FileExistsError
| IsADirectoryError
| NotADirectoryError
| UnidentifiedImageError
| OSError
| ValueError.

Inductive result (A : Type) :=
| Ok (a : A)
| Raise (e : exn).

Arguments Ok {A} a.
Arguments Raise {A} e.

Module Pillow.

(** *** Pixels and rasters *)

Definition gray : Type := Z.
Definition rgb : Type := Z * Z * Z.
Definition rgba : Type := Z * Z * Z * Z.

Definition alpha_of (p : rgba) : Z := let '(_, _, _, a) := p in a.
Definition rgb_of (p : rgba) : rgb := let '(r, g, b, _) := p in (r, g, b).
Definition with_alpha (p : rgba) (a : Z) : rgba := let '(r, g, b, _) := p in (r, g, b, a).

(** A raster is a size and a colour for every coordinate; only the
    coordinates inside the size are pixels of the image ([getpixel]). *)
Record raster (A : Type) := Raster { size : Z * Z; at_ : Z -> Z -> A }.

Arguments Raster {A} size at_.
Arguments size {A} r.
Arguments at_ {A} r x y.

Definition width {A} (r : raster A) : Z := fst (size r).
Definition height {A} (r : raster A) : Z := snd (size r).

Definition in_bounds (sz : Z * Z) (x y : Z) : bool :=
  (0 <=? x) && (x <? fst sz) && (0 <=? y) && (y <? snd sz).

(** [im.getpixel((x, y))]; [None] stands for the [IndexError] outside the
    image. *)
Definition getpixel {A} (r : raster A) (xy : Z * Z) : option A :=
  if in_bounds (size r) (fst xy) (snd xy) then Some (at_ r (fst xy) (snd xy)) else None.

(** An image carries its mode.  The three modes are the ones the scripts
    create and convert between; a file of another mode is outside the
    model. *)
Inductive image :=
| ImL (r : raster gray)
| ImRGB (r : raster rgb)
| ImRGBA (r : raster rgba).

Inductive mode := L | RGB | RGBA.

Definition mode_of (im : image) : mode :=
  match im with ImL _ => L | ImRGB _ => RGB | ImRGBA _ => RGBA end.

Definition size_of (im : image) : Z * Z :=
  match im with ImL r => size r | ImRGB r => size r | ImRGBA r => size r end.

Definition mode_eqb (a b : mode) : bool :=
  match a, b with L, L | RGB, RGB | RGBA, RGBA => true | _, _ => false end.

Definition size_eqb (a b : Z * Z) : bool :=
  (fst a =? fst b) && (snd a =? snd b).

(** [Image.new(mode, size, color)]: the mode is the pixel type. *)
Definition Image_new {A} (sz : Z * Z) (color : A) : result (raster A) :=
  if (fst sz <? 0) || (snd sz <? 0) then Raise ValueError
  else Ok (Raster sz (fun _ _ => color)).

(** [im.convert('RGBA')] and [im.convert('RGB')]. *)
Definition convert_RGBA (im : image) : raster rgba :=
  match im with
  | ImL r => Raster (size r) (fun x y => let v := at_ r x y in (v, v, v, 255))
  | ImRGB r => Raster (size r) (fun x y => let '(cr, cg, cb) := at_ r x y in (cr, cg, cb, 255))
  | ImRGBA r => r
  end.

Definition convert_RGB (r : raster rgba) : raster rgb :=
  Raster (size r) (fun x y => rgb_of (at_ r x y)).

(** *** Drawing *)

(** Every [ImageDraw] shape call replaces the covered pixels by the ink. *)
Definition paint {A} (cover : Z -> Z -> bool) (ink : A) (r : raster A) : raster A :=
  Raster (size r) (fun x y => if cover x y then ink else at_ r x y).

(** [draw.rectangle([x0, y0, x1, y1])]: both end points are included. *)
Definition rectangle_covers (box : Z * Z * Z * Z) (x y : Z) : bool :=
  let '(x0, y0, x1, y1) := box in
  (x0 <=? x) && (x <=? x1) && (y0 <=? y) && (y <=? y1).

Definition rectangle {A} (box : Z * Z * Z * Z) (fill : A) : raster A -> raster A :=
  paint (rectangle_covers box) fill.

(** [draw.line([(x0, y), (x1, y)])]: the scripts draw horizontal segments
    of the default width only, that is the row [y] from [x0] to [x1], both
    end points included. *)
Definition hline_covers (x0 x1 y0 : Z) (x y : Z) : bool :=
  (y =? y0) && (Z.min x0 x1 <=? x) && (x <=? Z.max x0 x1).

Definition line_horizontal {A} (x0 x1 y : Z) (fill : A) : raster A -> raster A :=
  paint (hline_covers x0 x1 y) fill.

(** Modelled from the spec: [ImageDraw.ellipse] belongs to the imaging
    library, not to the repository.  The spec describes it as a filled
    ellipse inscribed in its bounding box; coordinates name pixel corners,
    so the pixel [(x, y)] is the unit cell with centre [(x + 1/2, y + 1/2)]
    and it is covered when that centre lies in the closed ellipse.  With
    [w = x1 - x0] and [h = y1 - y0] that is
    [((2x+1) - (x0+x1))^2 / w^2 + ((2y+1) - (y0+y1))^2 / h^2 <= 1]. *)
Definition ellipse_covers (box : Z * Z * Z * Z) (x y : Z) : bool :=
  let '(x0, y0, x1, y1) := box in
  let w := x1 - x0 in
  let h := y1 - y0 in
  (0 <? w) && (0 <? h) &&
  ((2 * x + 1 - (x0 + x1)) ^ 2 * h ^ 2 + (2 * y + 1 - (y0 + y1)) ^ 2 * w ^ 2
   <=? w ^ 2 * h ^ 2).

Definition ellipse {A} (box : Z * Z * Z * Z) (fill : A) : raster A -> raster A :=
  paint (ellipse_covers box) fill.

(** [dst.paste(src, (ox, oy))] without a mask: the box of [src] placed at
    the offset is copied, all bands included. *)
Definition paste {A} (src : raster A) (off : Z * Z) (dst : raster A) : raster A :=
  Raster (size dst)
    (fun x y =>
       if in_bounds (size src) (x - fst off) (y - snd off)
       then at_ src (x - fst off) (y - snd off)
       else at_ dst x y).

(** [im.putalpha(mask)] with an ['L'] image: the alpha band is replaced by
    the mask; the sizes have to agree. *)
Definition putalpha (mask : raster gray) (r : raster rgba) : result (raster rgba) :=
  if size_eqb (size mask) (size r)
  then Ok (Raster (size r) (fun x y => with_alpha (at_ r x y) (at_ mask x y)))
  else Raise ValueError.

(** [im.resize(size, LANCZOS)]: the library returns a copy when the size
    is unchanged, refuses empty targets, and otherwise resamples; the
    resampling filter is the [resample] parameter of the renderer. *)
Definition resize_raster {A} (resample : raster A -> Z * Z -> Z -> Z -> A)
    (r : raster A) (sz : Z * Z) : result (raster A) :=
  if size_eqb (size r) sz then Ok r
  else if (fst sz <? 1) || (snd sz <? 1) then Raise ValueError
  else Ok (Raster sz (resample r sz)).

(** *** Fonts *)

Inductive font :=
| FreeTypeFont (path : string) (font_size : Z)
| DefaultFont.

(** *** The parts of the library left abstract

    Resampling, rounded rectangles, alpha compositing and text layout are
    numeric routines of the library whose pixel values no statement below
    depends on.  They are gathered in one interface. *)
Class Renderer := {
  resample : forall A, raster A -> Z * Z -> Z -> Z -> A;
  rounded_rectangle_covers : Z * Z * Z * Z -> Z -> Z -> Z -> bool;
  alpha_over : rgba -> rgba -> rgba;
  textbbox : Z * Z -> string -> font -> Z * Z * Z * Z;
  text_blend : Z * Z -> string -> font -> rgb -> Z -> Z -> rgb -> rgb
}.

Section WithRenderer.
Context {R : Renderer}.

Definition resize (im : image) (sz : Z * Z) : result image :=
  match im with
  | ImL r =>
      match resize_raster (resample gray) r sz with Ok r' => Ok (ImL r') | Raise e => Raise e end
  | ImRGB r =>
      match resize_raster (resample rgb) r sz with Ok r' => Ok (ImRGB r') | Raise e => Raise e end
  | ImRGBA r =>
      match resize_raster (resample rgba) r sz with Ok r' => Ok (ImRGBA r') | Raise e => Raise e end
  end.

(** [draw.rounded_rectangle(box, radius, fill)]. *)
Definition rounded_rectangle {A} (box : Z * Z * Z * Z) (radius : Z) (fill : A)
  : raster A -> raster A :=
  paint (rounded_rectangle_covers box radius) fill.

(** [Image.alpha_composite(dst, src)]: pixel by pixel, on equal sizes. *)
Definition alpha_composite (dst src : raster rgba) : result (raster rgba) :=
  if size_eqb (size dst) (size src)
  then Ok (Raster (size dst) (fun x y => alpha_over (at_ dst x y) (at_ src x y)))
  else Raise ValueError.

(** [draw.text(xy, text, fill, font)] on an RGB image. *)
Definition text (xy : Z * Z) (s : string) (fill : rgb) (f : font) (r : raster rgb)
  : raster rgb :=
  Raster (size r) (fun x y => text_blend xy s f fill x y (at_ r x y)).

End WithRenderer.

(** A renderer to evaluate the scripts with: nearest-neighbour resampling,
    square corners, source-over-destination by replacement, and glyphs
    drawn as a box of [font_size] per character. *)
Definition glyph_size (f : font) : Z :=
  match f with FreeTypeFont _ n => n | DefaultFont => 10 end.

Definition box_renderer : Renderer := {|
  resample := fun A r sz x y => at_ r (x * width r / fst sz) (y * height r / snd sz);
  rounded_rectangle_covers := fun box _ => rectangle_covers box;
  alpha_over := fun d s => if alpha_of s =? 0 then d else s;
  textbbox := fun xy s f =>
    (fst xy, snd xy,
     fst xy + Z.of_nat (String.length s) * glyph_size f, snd xy + glyph_size f);
  text_blend := fun xy s f fill x y under =>
    if rectangle_covers
         (fst xy, snd xy,
          fst xy + Z.of_nat (String.length s) * glyph_size f - 1,
          snd xy + glyph_size f - 1) x y
    then fill else under
|}.

End Pillow.

(** ** The operating system as the scripts see it *)

Module OS.
Import Pillow.
Import Stdlib.Strings.Ascii.

(** What a path may hold: a complete image that the library decodes, a
    font that it loads, or content that it identifies as neither.  An
    image file cut short, which opens and fails at the first pixel access,
    is outside the model. *)
Inductive file :=
| PNG (im : image)
| TTF
| Other.

(** Paths are the strings the scripts pass to the system, compared as
    written: two spellings of one place are two keys.  [opened] logs
    every path a script asked to read, [stdout] every printed line. *)
Record world := World {
  cwd : string;
  files : gmap string file;
  dirs : gset string;
  stdout : list string;
  opened : list string
}.

(** The three ways a script changes its world. *)
Definition log_open (p : string) (w : world) : world :=
  World (cwd w) (files w) (dirs w) (stdout w) (opened w ++ [p]).

Definition printed (s : string) (w : world) : world :=
  World (cwd w) (files w) (dirs w) (stdout w ++ [s]) (opened w).

Definition saved (p : string) (im : image) (w : world) : world :=
  World (cwd w) (<[p := PNG im]> (files w)) (dirs w) (stdout w) (opened w).

(** A script step runs in a world and either returns or raises; what it
    wrote before raising stays written. *)
Definition M (A : Type) : Type := world -> world * result A.

Definition ret {A} (a : A) : M A := fun w => (w, Ok a).

Definition bind {A B} (m : M A) (k : A -> M B) : M B :=
  fun w =>
    match m w with
    | (w', Ok a) => k a w'
    | (w', Raise e) => (w', Raise e)
    end.

Definition lift {A} (r : result A) : M A := fun w => (w, r).

(** [try: m except: handler] with a bare [except]. *)
Definition try_except {A} (m handler : M A) : M A :=
  fun w =>
    match m w with
    | (w', Ok a) => (w', Ok a)
    | (w', Raise _) => handler w'
    end.

Declare Scope script_scope.
Delimit Scope script_scope with script.

Notation "x <- m ;; k" := (bind m (fun x => k))
  (at level 100, m at next level, right associativity) : script_scope.
Notation "m ;; k" := (bind m (fun _ => k))
  (at level 100, right associativity) : script_scope.

Local Open Scope script_scope.

Fixpoint for_each {X} (l : list X) (body : X -> M unit) : M unit :=
  match l with
  | [] => ret tt
  | x :: l' => body x ;; for_each l' body
  end.

Definition print (s : string) : M unit :=
  fun w => (printed s w, Ok tt).

(** *** Paths *)

Definition is_sep (c : Ascii.ascii) : bool := Ascii.eqb c "/"%char.

Definition starts_with_sep (p : string) : bool :=
  match p with
  | String c _ => is_sep c
  | EmptyString => false
  end.

Fixpoint ends_with_sep (p : string) : bool :=
  match p with
  | EmptyString => false
  | String c EmptyString => is_sep c
  | String _ rest => ends_with_sep rest
  end.

(** [os.path.join(a, b)] on a POSIX system. *)
Definition os_path_join (a b : string) : string :=
  if starts_with_sep b then b
  else if String.eqb a "" || ends_with_sep a then a +:+ b
  else a +:+ "/" +:+ b.

(** The directory a path lies in: the text before its last separator,
    [None] for a bare name (which lies in the working directory). *)
Fixpoint parent_dir (p : string) : option string :=
  match p with
  | EmptyString => None
  | String c rest =>
      match parent_dir rest with
      | Some d => Some (String c d)
      | None => if is_sep c then Some EmptyString else None
      end
  end.

(** Whether the directory of [p] is there, by the name [p] spells. *)
Definition parent_exists (w : world) (p : string) : bool :=
  match parent_dir p with
  | None => true
  | Some d => String.eqb d "" || bool_decide (d ∈ dirs w)
  end.

(** *** File operations *)

Definition os_getcwd : M string := fun w => (w, Ok (cwd w)).

Definition os_path_exists (p : string) : M bool :=
  fun w => (w, Ok (bool_decide (is_Some (files w !! p)) || bool_decide (p ∈ dirs w))).

(** [os.makedirs(p, exist_ok=True)]. *)
Definition os_makedirs (p : string) : M unit :=
  fun w =>
    match files w !! p with
    | Some _ => (w, Raise FileExistsError)
    | None => (World (cwd w) (files w) ({[p]} ∪ dirs w) (stdout w) (opened w), Ok tt)
    end.

(** [Image.open(p)]: a directory cannot be opened, a missing path is not
    found, and a file that is no image is not identified. *)
Definition Image_open (p : string) : M image :=
  fun w =>
    match files w !! p with
    | Some (PNG im) => (log_open p w, Ok im)
    | Some _ => (log_open p w, Raise UnidentifiedImageError)
    | None =>
        if bool_decide (p ∈ dirs w)
        then (log_open p w, Raise IsADirectoryError)
        else (log_open p w, Raise FileNotFoundError)
    end.

(** [im.save(p, 'PNG', quality=100)]: PNG is lossless, the file holds the
    image; the directory of [p] has to exist, and a regular file in its
    place is no directory.  A directory sitting at [p] itself, which the
    system refuses to overwrite, is outside the model. *)
Definition Image_save (im : image) (p : string) : M unit :=
  fun w =>
    if parent_exists w p
    then (saved p im w, Ok tt)
    else
      match parent_dir p with
      | Some d =>
          match files w !! d with
          | Some _ => (w, Raise NotADirectoryError)
          | None => (w, Raise FileNotFoundError)
          end
      | None => (w, Raise FileNotFoundError)
      end.

(** [ImageFont.truetype(p, n)] raises when [p] is not a loadable font;
    [ImageFont.load_default()] always answers.  A font is known by its
    path and size: what its glyphs look like is left to the renderer. *)
Definition ImageFont_truetype (p : string) (n : Z) : M font :=
  fun w =>
    match files w !! p with
    | Some TTF => (log_open p w, Ok (FreeTypeFont p n))
    | _ => (log_open p w, Raise OSError)
    end.

Definition ImageFont_load_default : M font := ret DefaultFont.

(** Whether a path holds a loadable font. *)
Definition holds_font (w : world) (p : string) : bool :=
  match files w !! p with
  | Some TTF => true
  | _ => false
  end.

End OS.

(** ** scripts/make-round-icon.py *)

Module MakeRoundIcon.
Import Pillow OS.
Local Open Scope script_scope.

Section Script.
Context {R : Renderer}.

Definition create_round_mask (size : Z) : result (raster gray) :=
  match Image_new (size, size) 0 with
  | Ok mask => Ok (ellipse (0, 0, size, size) 255 mask)
  | Raise e => Raise e
  end.

Definition make_icon_round (input_path output_path : string) (size : Z)
  : M (raster rgba) :=
  icon <- Image_open input_path ;;
  icon <- (if negb (size_eqb (size_of icon) (size, size))
           then lift (resize icon (size, size))
           else ret icon) ;;
  let icon :=
    if negb (mode_eqb (mode_of icon) RGBA) then ImRGBA (convert_RGBA icon) else icon in
  mask <- lift (create_round_mask size) ;;
  round_icon <- lift (Image_new (size, size) (0, 0, 0, 0)) ;;
  let round_icon := paste (convert_RGBA icon) (0, 0) round_icon in
  round_icon <- lift (putalpha mask round_icon) ;;
  Image_save (ImRGBA round_icon) output_path ;;
  print ("✅ Created round icon: " +:+ output_path) ;;
  ret round_icon.

Definition create_round_notification_icon : M unit :=
  let size := 256 in
  notification_icon <- lift (Image_new (size, size) (0, 0, 0, 0)) ;;
  let margin := size / 6 in
  let notification_icon :=
    ellipse (margin, margin, size - margin, size - margin) (255, 255, 255, 255)
      notification_icon in
  let center_x := size / 2 in
  let center_y := size / 2 in
  let bar_width := size / 20 in
  let bar_spacing := bar_width + 5 in
  let bars :=
    [ (center_x - bar_spacing, center_y + bar_width, bar_width, size / 8);
      (center_x, center_y - bar_width, bar_width, size / 6);
      (center_x + bar_spacing, center_y - size / 10, bar_width, size / 5) ] in
  let notification_icon :=
    fold_left
      (fun im '(x, y, width, height) =>
         rectangle (x, y, x + width, y + height) (0, 245, 255, 255) im)
      bars notification_icon in
  mask <- lift (create_round_mask size) ;;
  notification_icon <- lift (putalpha mask notification_icon) ;;
  Image_save (ImRGBA notification_icon) "assets/notification-icon.png" ;;
  print "✅ Created round notification icon: assets/notification-icon.png".

Definition base_icon_path : string := "/home/king/Downloads/edp.png".

Definition icons_to_create : list (string * Z) :=
  [ ("assets/icon.png", 1024);
    ("assets/adaptive-icon.png", 1024);
    ("assets/splash-icon.png", 1024);
    ("assets/favicon.png", 32);
    ("assets/favicon-16x16.png", 16);
    ("assets/favicon-32x32.png", 32);
    ("assets/favicon-48x48.png", 48);
    ("assets/favicon-64x64.png", 64) ].

Definition create_all_round_icons : M unit :=
  found <- os_path_exists base_icon_path ;;
  if negb found
  then print "❌ Original icon not found at /home/king/Downloads/edp.png"
  else
    for_each icons_to_create
      (fun '(output_path, size) => make_icon_round base_icon_path output_path size ;; ret tt) ;;
    create_round_notification_icon.

Definition newline : string := String (Ascii.ascii_of_nat 10) "".

Definition main : M unit :=
  print "🔄 Making EduDashPro icons round..." ;;
  create_all_round_icons ;;
  print (newline +:+ "🎉 All icons are now perfectly round!") ;;
  print "🔄 The new round icons will appear after you refresh your browser/app".

(** *** Closed forms used to state what the script computes *)

(** The icon [make_icon_round] pastes: the input brought to the target
    size and to RGBA. *)
Definition prepared (im : image) (size : Z) : raster rgba :=
  match resize im (size, size) with
  | Ok icon => convert_RGBA icon
  | Raise _ => convert_RGBA im
  end.

(** A transparent canvas with [icon] pasted at the origin and the alpha
    band replaced by the circular mask. *)
Definition rounded (icon : raster rgba) (size : Z) : raster rgba :=
  Raster (size, size)
    (fun x y =>
       with_alpha
         (if in_bounds (Pillow.size icon) (x - 0) (y - 0)
          then at_ icon (x - 0) (y - 0)
          else (0, 0, 0, 0))
         (if ellipse_covers (0, 0, size, size) x y then 255 else 0)).

(** [out] is the input resized to [size] by [size] and nothing else. *)
Definition resized_copy (im : image) (size : Z) (out : raster rgba) : Prop :=
  exists icon,
    resize im (size, size) = Ok icon
    /\ Pillow.size out = (size, size)
    /\ forall x y, 0 <= x < size -> 0 <= y < size ->
         getpixel out (x, y) = getpixel (convert_RGBA icon) (x, y).

Definition created_message (output_path : string) : string :=
  "✅ Created round icon: " +:+ output_path.

(** The files the loop of [create_all_round_icons] leaves behind. *)
Definition write_round_icons (im : image) (l : list (string * Z))
    (fs : gmap string file) : gmap string file :=
  fold_left
    (fun fs '(output_path, size) =>
       <[output_path := PNG (ImRGBA (rounded (prepared im size) size))]> fs)
    l fs.

End Script.

(** The pixels of the notification icon, shape by shape, with the
    coordinates of [create_round_notification_icon] worked out: the last
    bar drawn is on top, the white disc under the bars, the transparent
    canvas under the disc, and the circular mask as alpha. *)
Definition notification_pixel (x y : Z) : rgba :=
  with_alpha
    (if rectangle_covers (145, 103, 157, 154) x y then (0, 245, 255, 255)
     else if rectangle_covers (128, 116, 140, 158) x y then (0, 245, 255, 255)
     else if rectangle_covers (111, 140, 123, 172) x y then (0, 245, 255, 255)
     else if ellipse_covers (42, 42, 214, 214) x y then (255, 255, 255, 255)
     else (0, 0, 0, 0))
    (if ellipse_covers (0, 0, 256, 256) x y then 255 else 0).

Definition notification_path : string := "assets/notification-icon.png".

Definition notification_message : string :=
  "✅ Created round notification icon: assets/notification-icon.png".

(** What the loop needs of an entry of its list: a path other than the
    source, inside [assets], and a positive size. *)
Definition icon_entry_ok (e : string * Z) : Prop :=
  fst e <> base_icon_path /\ 0 < snd e /\ parent_dir (fst e) = Some "assets".


Definition not_found_message : string :=
  "❌ Original icon not found at /home/king/Downloads/edp.png".

(** *** Sample inputs to run the script on *)

(** A 4x4 opaque white RGBA picture, and a world that holds it at the
    path the script reads, with an [assets] directory to write to. *)
Definition white4 : image := ImRGBA (Raster (4, 4) (fun _ _ => (255, 255, 255, 255))).

Definition sample_world : world :=
  World "/work" {[ base_icon_path := PNG white4 ]} {[ "assets" ]} [] [].

(** A world with no file at all. *)
Definition empty_world : world := World "/work" ∅ ∅ [] [].

(** The same picture with a fully transparent alpha band. *)
Definition clear4 : image := ImRGBA (Raster (4, 4) (fun _ _ => (255, 255, 255, 0))).

Definition sample_world_clear : world :=
  World "/work" {[ base_icon_path := PNG clear4 ]} {[ "assets" ]} [] [].

(** The source is there, the [assets] directory is not. *)
Definition sample_world_no_assets : world :=
  World "/work" {[ base_icon_path := PNG white4 ]} ∅ [] [].

End MakeRoundIcon.

(** ** scripts/generate-app-icon.py *)

Module GenerateAppIcon.
Import Pillow OS.
Local Open Scope script_scope.

(** [range(n)]. *)
Definition range (n : Z) : list Z := map Z.of_nat (seq 0 (Z.to_nat n)).

(** [int(x)] on a float truncates towards zero.  The floats of the
    gradient are quotients by [size = 1024 = 2^10] of integers below
    [2^18], added to integers below [2^8]: each of them is a binary
    fraction that a double holds exactly, so rationals compute the same
    values. *)
Definition py_int (q : Q) : Z := Z.quot (Qnum q) (Z.pos (Qden q)).

Definition gradient_color (size y : Z) : rgb :=
  let r := py_int (0 + inject_Z (10 * y) / inject_Z size) in
  let g := py_int (245 - inject_Z (50 * y) / inject_Z size) in
  let b := py_int (255 - inject_Z (100 * y) / inject_Z size) in
  (r, g, b).

(** The loop [for y in range(size): ... draw.line([(0, y), (size, y)])]. *)
Definition gradient_background (size : Z) (img : raster rgb) : raster rgb :=
  fold_left
    (fun img y =>
       let color := gradient_color size y in
       line_horizontal 0 size y color img)
    (range size) img.

Definition font_path : string := "/usr/share/fonts/truetype/dejavu/DejaVuSans-Bold.ttf".

Definition dot_color (i : Z) : rgb :=
  if i =? 0 then (255, 107, 107)
  else if i =? 1 then (78, 205, 196)
  else (69, 183, 209).

Section Script.
Context {R : Renderer}.

(** [create_educational_icon] up to the dots: everything it draws before
    it looks for a font. *)
Definition draw_artwork : result (raster rgb) :=
  let size := 1024 in
  match Image_new (size, size) (0, 245, 255) with
  | Raise e => Raise e
  | Ok img =>
  let img := gradient_background size img in
  let margin := size / 8 in
  match Image_new (size, size) (255, 255, 255, 0) with
  | Raise e => Raise e
  | Ok overlay =>
  let corner_radius := size / 6 in
  let rect_coords := (margin, margin, size - margin, size - margin) in
  let overlay := rounded_rectangle rect_coords corner_radius (255, 255, 255, 40) overlay in
  match alpha_composite (convert_RGBA (ImRGB img)) overlay with
  | Raise e => Raise e
  | Ok composed =>
  let img := convert_RGB composed in
  let center_x := size / 2 in
  let center_y := size / 2 in
  let book_width := size / 3 in
  let book_height := size / 4 in
  let book_left := center_x - book_width / 2 in
  let book_top := center_y - book_height / 2 - size / 12 in
  let img :=
    rounded_rectangle
      (book_left, book_top, book_left + book_width, book_top + book_height)
      20 (255, 255, 255) img in
  let spine_width := 8 in
  let img :=
    rectangle
      (book_left + book_width / 3, book_top,
       book_left + book_width / 3 + spine_width, book_top + book_height)
      (0, 102, 204) img in
  let line_color := (51, 51, 51) in
  let line_y_start := book_top + book_height / 4 in
  let line_spacing := book_height / 6 in
  let line_left := book_left + book_width / 6 in
  let line_right := book_left + book_width - book_width / 6 in
  let img :=
    fold_left
      (fun img i =>
         let y := line_y_start + i * line_spacing in
         let width := if i =? 0 then 3 else 2 in
         rectangle (line_left, y, line_right - i * 20, y + width) line_color img)
      (range 3) img in
  let dot_size := 12 in
  let dot_y := center_y + book_height / 2 + size / 10 in
  let img :=
    fold_left
      (fun img i =>
         let dot_x := center_x - 30 + i * 30 in
         let color := dot_color i in
         ellipse
           (dot_x - dot_size / 2, dot_y - dot_size / 2,
            dot_x + dot_size / 2, dot_y + dot_size / 2)
           color img)
      (range 3) img in
  Ok img
  end end end.

(** The two [draw.text] calls that write "EDU" with its shadow. *)
Definition draw_label (font : font) (img : raster rgb) : raster rgb :=
  let size := 1024 in
  let center_x := size / 2 in
  let center_y := size / 2 in
  let book_height := size / 4 in
  let text_ := "EDU" in
  let text_bbox := textbbox (0, 0) text_ font in
  let text_width := snd (fst text_bbox) - fst (fst (fst text_bbox)) in
  let text_x := center_x - text_width / 2 in
  let text_y := center_y + book_height / 2 + size / 6 in
  let img := text (text_x + 2, text_y + 2) text_ (0, 0, 0) font img in
  text (text_x, text_y) text_ (255, 255, 255) font img.

Definition create_educational_icon : M (raster rgb) :=
  let size := 1024 in
  img <- lift draw_artwork ;;
  font <- try_except
            (let font_size := size / 20 in ImageFont_truetype font_path font_size)
            ImageFont_load_default ;;
  ret (draw_label font img).

Definition create_notification_icon : result (raster rgba) :=
  let size := 256 in
  match Image_new (size, size) (0, 0, 0, 0) with
  | Raise e => Raise e
  | Ok img =>
  let center_x := size / 2 in
  let center_y := size / 2 in
  let book_width := size / 2 in
  let book_height := size / 3 in
  let book_left := center_x - book_width / 2 in
  let book_top := center_y - book_height / 2 in
  let img :=
    rounded_rectangle
      (book_left, book_top, book_left + book_width, book_top + book_height)
      (size / 20) (255, 255, 255, 255) img in
  let spine_width := size / 32 in
  let img :=
    rectangle
      (book_left + book_width / 3, book_top,
       book_left + book_width / 3 + spine_width, book_top + book_height)
      (255, 255, 255, 255) img in
  Ok img
  end.

Definition save_app_icons (base_image : image) : M unit :=
  here <- os_getcwd ;;
  let assets_dir := os_path_join here "assets" in
  os_makedirs assets_dir ;;
  let icon_path := os_path_join assets_dir "icon.png" in
  Image_save base_image icon_path ;;
  print ("✅ Created app icon: " +:+ icon_path) ;;
  let adaptive_icon_path := os_path_join assets_dir "adaptive-icon.png" in
  Image_save base_image adaptive_icon_path ;;
  print ("✅ Created adaptive icon: " +:+ adaptive_icon_path) ;;
  let splash_icon_path := os_path_join assets_dir "splash-icon.png" in
  Image_save base_image splash_icon_path ;;
  print ("✅ Created splash icon: " +:+ splash_icon_path) ;;
  notification_icon <- lift create_notification_icon ;;
  let notification_icon_path := os_path_join assets_dir "notification-icon.png" in
  Image_save (ImRGBA notification_icon) notification_icon_path ;;
  print ("✅ Created notification icon: " +:+ notification_icon_path) ;;
  favicon <- lift (resize base_image (32, 32)) ;;
  let favicon_path := os_path_join assets_dir "favicon.png" in
  Image_save favicon favicon_path ;;
  print ("✅ Created favicon: " +:+ favicon_path).

Definition newline : string := String (Ascii.ascii_of_nat 10) "".

Definition main : M unit :=
  print "🎨 Generating custom EduDashPro app icons..." ;;
  icon <- create_educational_icon ;;
  save_app_icons (ImRGB icon) ;;
  print (newline +:+ "🎉 Custom app icons generated successfully!") ;;
  print "📱 Your app will now use a professional educational-themed icon" ;;
  print "🔄 Run your build again to see the new icons".

(** *** Closed forms used to state what the script computes *)

(** The five files [save_app_icons] leaves in the directory [d]. *)
Definition write_app_icons (d : string) (base_image favicon : image)
    (notification_icon : raster rgba) (fs : gmap string file) : gmap string file :=
  <[os_path_join d "favicon.png" := PNG favicon]>
    (<[os_path_join d "notification-icon.png" := PNG (ImRGBA notification_icon)]>
       (<[os_path_join d "splash-icon.png" := PNG base_image]>
          (<[os_path_join d "adaptive-icon.png" := PNG base_image]>
             (<[os_path_join d "icon.png" := PNG base_image]> fs)))).

(** The colour at row [y] of a channel that runs linearly from [c0] at
    row 0 to [c1] at row 1024, cut to an integer. *)
Definition lerp (c0 c1 y : Z) : Z := (c0 * 1024 + (c1 - c0) * y) / 1024.

Definition app_icon_messages (d : string) : list string :=
  [ "✅ Created app icon: " +:+ os_path_join d "icon.png";
    "✅ Created adaptive icon: " +:+ os_path_join d "adaptive-icon.png";
    "✅ Created splash icon: " +:+ os_path_join d "splash-icon.png";
    "✅ Created notification icon: " +:+ os_path_join d "notification-icon.png";
    "✅ Created favicon: " +:+ os_path_join d "favicon.png" ].

End Script.

(** *** Sample inputs to run the script on *)

(** A world with no file at all: not even the font is installed. *)
Definition bare_world : world := World "/work" ∅ ∅ [] [].


(** A world where a regular file sits where the assets directory goes. *)
Definition blocked_world : world := World "/work" {[ "/work/assets" := Other ]} ∅ [] [].

End GenerateAppIcon.

(** ** Starting a script *)

Module Entry.
Import Pillow OS.


Section Script.
Context {R : Renderer}.



End Script.



End Entry.

(** * Properties *)

(** ** Rasters and drawing *)

Module PillowFacts.
Import Pillow.

Lemma size_eqb_eq (a b : Z * Z) : size_eqb a b = true <-> a = b.
Proof.
  destruct a as [a1 a2], b as [b1 b2]; unfold size_eqb; cbn.
  rewrite andb_true_iff, !Z.eqb_eq. split.
  - intros [-> ->]; reflexivity.
  - intros [= -> ->]; split; reflexivity.
Qed.

Lemma size_eqb_refl (a : Z * Z) : size_eqb a a = true.
Proof. apply size_eqb_eq; reflexivity. Qed.

Lemma Image_new_ok {A} (w h : Z) (c : A) :
  0 <= w -> 0 <= h -> Image_new (w, h) c = Ok (Raster (w, h) (fun _ _ => c)).
Proof.
  intros Hw Hh. unfold Image_new; cbn.
  destruct (Z.ltb_spec w 0); [lia |]. destruct (Z.ltb_spec h 0); [lia |]. reflexivity.
Qed.

Lemma size_paint {A} cover (ink : A) r : size (paint cover ink r) = size r.
Proof. reflexivity. Qed.

Lemma size_convert_RGBA im : size (convert_RGBA im) = size_of im.
Proof. destruct im; reflexivity. Qed.

Lemma getpixel_in {A} (r : raster A) x y :
  in_bounds (size r) x y = true -> getpixel r (x, y) = Some (at_ r x y).
Proof. intros H. unfold getpixel; cbn. rewrite H. reflexivity. Qed.

Lemma in_bounds_square n x y :
  in_bounds (n, n) x y = true <-> 0 <= x < n /\ 0 <= y < n.
Proof.
  unfold in_bounds; cbn. rewrite !andb_true_iff, !Z.leb_le, !Z.ltb_lt. lia.
Qed.

(** The inscribed ellipse of a square box is the disc through the pixel
    centres at distance at most [n/2] from the middle of the box. *)
Lemma ellipse_covers_square n x y :
  0 < n ->
  ellipse_covers (0, 0, n, n) x y = true
  <-> (2 * x + 1 - n) ^ 2 + (2 * y + 1 - n) ^ 2 <= n ^ 2.
Proof.
  intros Hn. unfold ellipse_covers.
  rewrite !Z.sub_0_r, !Z.add_0_l, !andb_true_iff, Z.ltb_lt, Z.leb_le.
  split.
  - intros [_ H]. nia.
  - intros H. split; [lia | nia].
Qed.

Lemma ellipse_covers_box x0 y0 x1 y1 x y :
  x0 < x1 -> y0 < y1 ->
  ellipse_covers (x0, y0, x1, y1) x y = true
  <-> (2 * x + 1 - (x0 + x1)) ^ 2 * (y1 - y0) ^ 2
      + (2 * y + 1 - (y0 + y1)) ^ 2 * (x1 - x0) ^ 2
      <= (x1 - x0) ^ 2 * (y1 - y0) ^ 2.
Proof.
  intros Hx Hy. unfold ellipse_covers.
  rewrite !andb_true_iff, !Z.ltb_lt, Z.leb_le. intuition lia.
Qed.

Section WithRenderer.
Context {R : Renderer}.

Lemma resize_ok im n :
  0 < n -> exists icon, resize im (n, n) = Ok icon /\ size_of icon = (n, n).
Proof.
  intros Hn.
  assert (Hg : (fst (n, n) <? 1) || (snd (n, n) <? 1) = false).
  { cbn. destruct (Z.ltb_spec n 1); [lia | reflexivity]. }
  destruct im as [r | r | r]; unfold resize, resize_raster;
    destruct (size_eqb (size r) (n, n)) eqn:E;
    try (apply size_eqb_eq in E); rewrite ?Hg;
    eexists; (split; [reflexivity | cbn; congruence]).
Qed.

Lemma resize_same im : resize im (size_of im) = Ok im.
Proof.
  destruct im as [r | r | r]; unfold resize, resize_raster; cbn;
    rewrite size_eqb_refl; reflexivity.
Qed.

End WithRenderer.

End PillowFacts.

(** ** The script monad and the file system *)

Module OSFacts.
Import Pillow OS.
Local Open Scope script_scope.

Lemma bind_ok {A B} (m : M A) (k : A -> M B) w w' a :
  m w = (w', Ok a) -> bind m k w = k a w'.
Proof. intros H. unfold bind. rewrite H. reflexivity. Qed.

Lemma bind_raise {A B} (m : M A) (k : A -> M B) w w' e :
  m w = (w', Raise e) -> bind m k w = (w', Raise e).
Proof. intros H. unfold bind. rewrite H. reflexivity. Qed.

Lemma Image_open_png p w im :
  files w !! p = Some (PNG im) -> Image_open p w = (log_open p w, Ok im).
Proof. intros H. unfold Image_open. rewrite H. reflexivity. Qed.

Lemma Image_save_ok im p w :
  parent_exists w p = true -> Image_save im p w = (saved p im w, Ok tt).
Proof. intros H. unfold Image_save. rewrite H. reflexivity. Qed.

Lemma parent_exists_in w p d :
  parent_dir p = Some d -> d ∈ dirs w -> parent_exists w p = true.
Proof.
  intros Hp Hd. unfold parent_exists. rewrite Hp.
  rewrite (bool_decide_eq_true_2 _ Hd). apply orb_true_r.
Qed.

(** Projections of the three world updates, and extensionality. *)
Lemma world_eq a b :
  cwd a = cwd b -> files a = files b -> dirs a = dirs b ->
  stdout a = stdout b -> opened a = opened b -> a = b.
Proof. destruct a, b; cbn; congruence. Qed.

Lemma cwd_printed s w : cwd (printed s w) = cwd w.
Proof. reflexivity. Qed.
Lemma files_printed s w : files (printed s w) = files w.
Proof. reflexivity. Qed.
Lemma dirs_printed s w : dirs (printed s w) = dirs w.
Proof. reflexivity. Qed.
Lemma stdout_printed s w : stdout (printed s w) = stdout w ++ [s].
Proof. reflexivity. Qed.
Lemma opened_printed s w : opened (printed s w) = opened w.
Proof. reflexivity. Qed.

Lemma cwd_saved p im w : cwd (saved p im w) = cwd w.
Proof. reflexivity. Qed.
Lemma files_saved p im w : files (saved p im w) = <[p := PNG im]> (files w).
Proof. reflexivity. Qed.
Lemma dirs_saved p im w : dirs (saved p im w) = dirs w.
Proof. reflexivity. Qed.
Lemma stdout_saved p im w : stdout (saved p im w) = stdout w.
Proof. reflexivity. Qed.
Lemma opened_saved p im w : opened (saved p im w) = opened w.
Proof. reflexivity. Qed.

Lemma cwd_log_open p w : cwd (log_open p w) = cwd w.
Proof. reflexivity. Qed.
Lemma files_log_open p w : files (log_open p w) = files w.
Proof. reflexivity. Qed.
Lemma dirs_log_open p w : dirs (log_open p w) = dirs w.
Proof. reflexivity. Qed.
Lemma stdout_log_open p w : stdout (log_open p w) = stdout w.
Proof. reflexivity. Qed.
Lemma opened_log_open p w : opened (log_open p w) = opened w ++ [p].
Proof. reflexivity. Qed.

Create Rewrite HintDb world.

#[export] Hint Rewrite
  cwd_printed files_printed dirs_printed stdout_printed opened_printed
  cwd_saved files_saved dirs_saved stdout_saved opened_saved
  cwd_log_open files_log_open dirs_log_open stdout_log_open opened_log_open
  : world.

End OSFacts.

(** ** make-round-icon.py *)

Module MakeRoundIconFacts.
Import Pillow OS PillowFacts OSFacts MakeRoundIcon.
Local Open Scope script_scope.

Section WithRenderer.
Context {R : Renderer}.

Lemma create_round_mask_ok n :
  0 <= n ->
  create_round_mask n
  = Ok (Raster (n, n) (fun x y => if ellipse_covers (0, 0, n, n) x y then 255 else 0)).
Proof.
  intros Hn. unfold create_round_mask. rewrite Image_new_ok by lia. reflexivity.
Qed.

(** What one call of [make_icon_round] does when the input is an image,
    the target size is positive and the output directory exists. *)
Lemma make_icon_round_ok input output n w im :
  0 < n ->
  files w !! input = Some (PNG im) ->
  parent_exists w output = true ->
  make_icon_round input output n w
  = (printed (created_message output)
       (saved output (ImRGBA (rounded (prepared im n) n)) (log_open input w)),
     Ok (rounded (prepared im n) n)).
Proof.
  intros Hn Hin Hout. unfold make_icon_round.
  rewrite (bind_ok _ _ _ _ _ (Image_open_png _ _ _ Hin)).
  assert (Hprep : exists icon,
             (if negb (size_eqb (size_of im) (n, n))
              then lift (resize im (n, n)) else ret im) (log_open input w)
             = (log_open input w, Ok icon)
             /\ size_of icon = (n, n) /\ convert_RGBA icon = prepared im n).
  { unfold prepared. destruct (size_eqb (size_of im) (n, n)) eqn:E; cbn.
    - apply size_eqb_eq in E. exists im. rewrite <- E, resize_same. auto.
    - destruct (resize_ok im n Hn) as (icon & Hr & Hs).
      exists icon. unfold lift. rewrite Hr. auto. }
  destruct Hprep as (icon & Hrun & Hsz & Hconv).
  rewrite (bind_ok _ _ _ _ _ Hrun).
  assert (Hmode : convert_RGBA
            (if negb (mode_eqb (mode_of icon) RGBA) then ImRGBA (convert_RGBA icon) else icon)
          = prepared im n).
  { destruct icon; cbn; rewrite <- Hconv; reflexivity. }
  rewrite Hmode.
  unfold bind at 1, lift at 1. rewrite create_round_mask_ok by lia.
  unfold bind at 1, lift at 1. rewrite Image_new_ok by lia.
  unfold bind at 1, lift at 1, putalpha. cbn [size paste]. rewrite size_eqb_refl.
  erewrite bind_ok; [| apply Image_save_ok; exact Hout].
  reflexivity.
Qed.

Lemma create_round_notification_icon_ok w :
  "assets" ∈ dirs w ->
  create_round_notification_icon w
  = (printed notification_message
       (saved notification_path (ImRGBA (Raster (256, 256) notification_pixel)) w),
     Ok tt).
Proof.
  intros Hd. unfold create_round_notification_icon. cbv zeta.
  unfold bind at 1, lift at 1. rewrite Image_new_ok by lia.
  unfold bind at 1, lift at 1. rewrite create_round_mask_ok by lia.
  unfold bind at 1, lift at 1, putalpha.
  cbn [size fold_left rectangle ellipse paint]. rewrite size_eqb_refl.
  erewrite bind_ok;
    [| apply Image_save_ok; apply (parent_exists_in _ _ "assets"); [reflexivity | exact Hd]].
  reflexivity.
Qed.

(** The loop of [create_all_round_icons] over any list of well-formed
    entries: one file per entry, one message per entry, one read of the
    source per entry. *)
Lemma round_icons_loop im l :
  Forall icon_entry_ok l ->
  forall w,
    files w !! base_icon_path = Some (PNG im) ->
    "assets" ∈ dirs w ->
    for_each l
      (fun '(output_path, size) =>
         make_icon_round base_icon_path output_path size ;; ret tt) w
    = (World (cwd w) (write_round_icons im l (files w)) (dirs w)
         (stdout w ++ map (fun e => created_message (fst e)) l)
         (opened w ++ map (fun _ => base_icon_path) l),
       Ok tt).
Proof.
  induction 1 as [| [p n] l [Hne [Hn Hp]] Hl IH]; intros w Hin Hd.
  - cbn. rewrite !app_nil_r. destruct w; reflexivity.
  - cbn [for_each]. cbn in Hne, Hn, Hp.
    erewrite bind_ok; cycle 1.
    { erewrite bind_ok; [reflexivity |].
      apply make_icon_round_ok; [exact Hn | exact Hin |].
      apply (parent_exists_in _ _ "assets"); assumption. }
    rewrite IH; cycle 1.
    { cbn. rewrite lookup_insert_ne by exact Hne. exact Hin. }
    { exact Hd. }
    cbn. rewrite <- !app_assoc. reflexivity.
Qed.

Lemma icons_to_create_ok : Forall icon_entry_ok icons_to_create.
Proof. repeat constructor; cbn; try lia; discriminate. Qed.

Lemma create_all_round_icons_ok w im :
  files w !! base_icon_path = Some (PNG im) ->
  "assets" ∈ dirs w ->
  create_all_round_icons w
  = (World (cwd w)
       (<[notification_path := PNG (ImRGBA (Raster (256, 256) notification_pixel))]>
          (write_round_icons im icons_to_create (files w)))
       (dirs w)
       (stdout w ++ map (fun e => created_message (fst e)) icons_to_create
          ++ [notification_message])
       (opened w ++ map (fun _ => base_icon_path) icons_to_create),
     Ok tt).
Proof.
  intros Hin Hd. unfold create_all_round_icons.
  unfold bind at 1, os_path_exists at 1.
  rewrite Hin. rewrite bool_decide_eq_true_2 by eauto.
  cbn [orb negb].
  erewrite bind_ok; [| apply (round_icons_loop im _ icons_to_create_ok); assumption].
  rewrite create_round_notification_icon_ok by exact Hd.
  unfold printed, saved. cbn [cwd files dirs stdout opened].
  rewrite <- app_assoc. reflexivity.
Qed.

Lemma create_all_round_icons_absent w :
  files w !! base_icon_path = None ->
  base_icon_path ∉ dirs w ->
  create_all_round_icons w = (printed not_found_message w, Ok tt).
Proof.
  intros Hin Hd. unfold create_all_round_icons.
  unfold bind at 1, os_path_exists at 1.
  rewrite Hin. rewrite bool_decide_eq_false_2 by (intros [? ?]; discriminate).
  rewrite bool_decide_eq_false_2 by exact Hd.
  reflexivity.
Qed.


Lemma round_main_absent w :
  files w !! base_icon_path = None ->
  base_icon_path ∉ dirs w ->
  main w
  = (World (cwd w) (files w) (dirs w)
       (stdout w
          ++ [ "🔄 Making EduDashPro icons round...";
               not_found_message;
               newline +:+ "🎉 All icons are now perfectly round!";
               "🔄 The new round icons will appear after you refresh your browser/app" ])
       (opened w),
     Ok tt).
Proof.
  intros Hin Hd. unfold main. unfold bind at 1, print at 1.
  erewrite bind_ok; [| apply create_all_round_icons_absent; assumption].
  unfold bind, print, printed. cbn [cwd files dirs stdout opened].
  rewrite <- !app_assoc. reflexivity.
Qed.

(** Every entry of the fixed list ends up holding its own round icon. *)
Lemma round_icons_written im fs extra p n :
  In (p, n) icons_to_create ->
  (<[notification_path := extra]> (write_round_icons im icons_to_create fs)) !! p
  = Some (PNG (ImRGBA (rounded (prepared im n) n))).
Proof.
  unfold icons_to_create, write_round_icons, notification_path. cbn [In fold_left].
  intros H.
  repeat (destruct H as [[= <- <-] | H];
          [repeat (rewrite lookup_insert_ne by discriminate);
           apply lookup_insert_eq |]).
  destruct H.
Qed.

(** Nothing but the nine outputs is touched. *)
Lemma round_icons_frame im fs extra p :
  p <> notification_path ->
  ~ In p (map fst icons_to_create) ->
  (<[notification_path := extra]> (write_round_icons im icons_to_create fs)) !! p
  = fs !! p.
Proof.
  unfold icons_to_create, write_round_icons. cbn [In map fst fold_left].
  intros Hn H.
  rewrite lookup_insert_ne by congruence.
  repeat (rewrite lookup_insert_ne by (intros E; apply H; rewrite E; tauto)).
  reflexivity.
Qed.

End WithRenderer.

(** The three bars lie within the white disc. *)
Lemma bars_inside_disc x y :
  rectangle_covers (145, 103, 157, 154) x y
  || rectangle_covers (128, 116, 140, 158) x y
  || rectangle_covers (111, 140, 123, 172) x y = true ->
  (2 * x + 1 - 256) ^ 2 + (2 * y + 1 - 256) ^ 2 <= 172 ^ 2.
Proof.
  unfold rectangle_covers.
  rewrite !orb_true_iff, !andb_true_iff, !Z.leb_le.
  intros H.
  assert (Hx : -50 <= 2 * x + 1 - 256 <= 60) by lia.
  assert (Hy : -50 <= 2 * y + 1 - 256 <= 90) by lia.
  nia.
Qed.

Lemma notification_ring x y :
  (2 * x + 1 - 256) ^ 2 + (2 * y + 1 - 256) ^ 2 <= 256 ^ 2 ->
  (2 * x + 1 - 256) ^ 2 + (2 * y + 1 - 256) ^ 2 > 172 ^ 2 ->
  notification_pixel x y = (0, 0, 0, 255).
Proof.
  intros Hin Hout. unfold notification_pixel.
  pose proof (bars_inside_disc x y) as Hbars.
  destruct (rectangle_covers (145, 103, 157, 154) x y); [cbn in Hbars; lia |].
  destruct (rectangle_covers (128, 116, 140, 158) x y); [cbn in Hbars; lia |].
  destruct (rectangle_covers (111, 140, 123, 172) x y); [cbn in Hbars; lia |].
  destruct (ellipse_covers (42, 42, 214, 214) x y) eqn:Ed.
  { apply ellipse_covers_box in Ed; [| lia | lia].
    change (214 - 42) with 172 in Ed. change (42 + 214) with 256 in Ed. nia. }
  destruct (ellipse_covers (0, 0, 256, 256) x y) eqn:Em; [reflexivity |].
  apply (proj2 (ellipse_covers_square 256 x y ltac:(lia))) in Hin. congruence.
Qed.

Lemma alpha_rounded icon n x y :
  0 <= x < n -> 0 <= y < n ->
  alpha_of <$> getpixel (rounded icon n) (x, y)
  = Some (if ellipse_covers (0, 0, n, n) x y then 255 else 0).
Proof.
  intros Hx Hy.
  assert (Hb : in_bounds (n, n) x y = true) by (apply in_bounds_square; auto).
  rewrite getpixel_in by exact Hb. cbn.
  destruct (if in_bounds _ _ _ then _ else _) as [[[? ?] ?] ?]. reflexivity.
Qed.

Lemma rgb_rounded icon n x y :
  size icon = (n, n) -> 0 <= x < n -> 0 <= y < n ->
  rgb_of <$> getpixel (rounded icon n) (x, y) = rgb_of <$> getpixel icon (x, y).
Proof.
  intros Hs Hx Hy.
  assert (Hb : in_bounds (n, n) x y = true) by (apply in_bounds_square; auto).
  rewrite !getpixel_in by (rewrite ?Hs; exact Hb). cbn.
  rewrite !Z.sub_0_r, Hs, Hb.
  destruct (at_ icon x y) as [[[? ?] ?] ?]. reflexivity.
Qed.

(** The middle pixel lies in the inscribed disc, whatever the parity. *)
Lemma centre_in_disc n : 0 < n -> ellipse_covers (0, 0, n, n) (n / 2) (n / 2) = true.
Proof.
  intros Hn. apply ellipse_covers_square; [exact Hn |].
  pose proof (Z.div_mod n 2 ltac:(lia)) as Hd.
  pose proof (Z.mod_pos_bound n 2 ltac:(lia)) as Hm.
  assert (Hcases : n mod 2 = 0 \/ n mod 2 = 1) by lia.
  destruct Hcases as [E | E]; rewrite E in Hd.
  - replace (2 * (n / 2) + 1 - n) with 1 by lia. nia.
  - replace (2 * (n / 2) + 1 - n) with 0 by lia. nia.
Qed.

Lemma outside_disc n x y :
  0 < n -> (2 * x + 1 - n) ^ 2 + (2 * y + 1 - n) ^ 2 > n ^ 2 ->
  ellipse_covers (0, 0, n, n) x y = false.
Proof.
  intros Hn Hout. destruct (ellipse_covers (0, 0, n, n) x y) eqn:E; [| reflexivity].
  apply ellipse_covers_square in E; [lia | exact Hn].
Qed.

End MakeRoundIconFacts.

Module MakeRoundIconClaims.
Import Pillow OS PillowFacts OSFacts MakeRoundIcon MakeRoundIconFacts.
Local Open Scope script_scope.

Lemma sample_world_has_icon : files sample_world !! base_icon_path = Some (PNG white4).
Proof. apply lookup_singleton_eq. Qed.

Lemma sample_world_has_assets : "assets" ∈ dirs sample_world.
Proof. cbn. set_solver. Qed.

Lemma empty_world_has_no_dir p : p ∉ dirs empty_world.
Proof. cbn. set_solver. Qed.

Lemma sample_world_assets p :
  parent_dir p = Some "assets" -> parent_exists sample_world p = true.
Proof. intros H. apply (parent_exists_in _ _ _ H). cbn. set_solver. Qed.

Section WithRenderer.
Context {R : Renderer}.

(** C1.  [create_round_mask size] returns an ['L'] raster of [size] by
    [size] pixels which is 255 on the disc inscribed in the square -- the
    ellipse of bounding box [(0, 0, size, size)] -- and 0 elsewhere; and
    the alpha band of what [make_icon_round] returns is that raster, pixel
    by pixel. *)
Theorem create_round_mask_spec :
  (forall n, 0 <= n ->
     exists mask : raster gray,
       create_round_mask n = Ok mask
       /\ size mask = (n, n)
       /\ (forall x y, 0 <= x < n -> 0 <= y < n ->
             getpixel mask (x, y)
             = Some (if ellipse_covers (0, 0, n, n) x y then 255 else 0))
       /\ (forall x y, 0 <= x < n -> 0 <= y < n ->
             (getpixel mask (x, y) = Some 255
              <-> (2 * x + 1 - n) ^ 2 + (2 * y + 1 - n) ^ 2 <= n ^ 2)
             /\ (getpixel mask (x, y) = Some 0
              <-> (2 * x + 1 - n) ^ 2 + (2 * y + 1 - n) ^ 2 > n ^ 2)))
  /\ (forall n input output w im,
        0 < n ->
        files w !! input = Some (PNG im) ->
        parent_exists w output = true ->
        exists w' out mask,
          make_icon_round input output n w = (w', Ok out)
          /\ create_round_mask n = Ok mask
          /\ size out = size mask
          /\ forall x y, 0 <= x < n -> 0 <= y < n ->
               alpha_of <$> getpixel out (x, y) = getpixel mask (x, y)).
Proof.
  split.
  - intros n Hn.
    pose (mask := Raster (n, n)
                    (fun x y => if ellipse_covers (0, 0, n, n) x y then 255 else 0)
                  : raster gray).
    exists mask.
    split; [apply create_round_mask_ok; lia |].
    split; [reflexivity |].
    assert (Hpx : forall x y, 0 <= x < n -> 0 <= y < n ->
              getpixel mask (x, y)
              = Some (if ellipse_covers (0, 0, n, n) x y then 255 else 0)).
    { intros x y Hx Hy. apply getpixel_in. apply in_bounds_square. auto. }
    split; [exact Hpx |].
    intros x y Hx Hy. rewrite (Hpx x y Hx Hy).
    pose proof (ellipse_covers_square n x y ltac:(lia)) as Hc.
    destruct (ellipse_covers (0, 0, n, n) x y).
    + split; split; intros H; try reflexivity; try discriminate.
      * apply Hc; reflexivity.
      * apply proj1 in Hc. specialize (Hc eq_refl). lia.
    + split; split; intros H; try reflexivity; try discriminate.
      * apply Hc in H. discriminate.
      * destruct (Z_le_gt_dec ((2 * x + 1 - n) ^ 2 + (2 * y + 1 - n) ^ 2) (n ^ 2))
          as [Hle | Hgt]; [| exact Hgt].
        apply Hc in Hle. discriminate.
  - intros n input output w im Hn Hin Hout.
    eexists _, _, _. split; [apply make_icon_round_ok; eassumption |].
    split; [apply create_round_mask_ok; lia |].
    split; [reflexivity |].
    intros x y Hx Hy.
    assert (Hb : in_bounds (n, n) x y = true) by (apply in_bounds_square; auto).
    rewrite !getpixel_in by exact Hb. cbn.
    destruct (if in_bounds _ _ _ then _ else _) as [[[? ?] ?] ?]. reflexivity.
Qed.

(** C3.  Whatever image [make_icon_round] is given, its output is fully
    opaque at the centre pixel of the canvas, and every pixel strictly
    outside the circle inscribed in the [size] by [size] square has an
    alpha below 255. *)
Theorem round_icon_opacity input output n w im :
  0 < n ->
  files w !! input = Some (PNG im) ->
  parent_exists w output = true ->
  exists w' out,
    make_icon_round input output n w = (w', Ok out)
    /\ alpha_of <$> getpixel out (n / 2, n / 2) = Some 255
    /\ forall x y, 0 <= x < n -> 0 <= y < n ->
         (2 * x + 1 - n) ^ 2 + (2 * y + 1 - n) ^ 2 > n ^ 2 ->
         exists a, alpha_of <$> getpixel out (x, y) = Some a /\ a < 255.
Proof.
  intros Hn Hin Hout.
  eexists _, _. split; [apply make_icon_round_ok; eassumption |]. split.
  - rewrite alpha_rounded by (split; [apply Z.div_pos | apply Z.div_lt]; lia).
    rewrite centre_in_disc by exact Hn. reflexivity.
  - intros x y Hx Hy Hfar. exists 0.
    rewrite alpha_rounded by assumption.
    rewrite outside_disc by assumption. split; [reflexivity | lia].
Qed.

(** C9.  The alpha band of the output of [make_icon_round] is a function
    of the pixel position alone: two runs on any two input images -- in
    particular on two that agree on RGB and differ in alpha -- return
    outputs with the same alpha at every pixel, namely the circular mask. *)
Theorem alpha_independent_of_input n input1 input2 output1 output2 w1 w2 im1 im2 :
  0 < n ->
  files w1 !! input1 = Some (PNG im1) ->
  files w2 !! input2 = Some (PNG im2) ->
  parent_exists w1 output1 = true ->
  parent_exists w2 output2 = true ->
  exists w1' w2' out1 out2,
    make_icon_round input1 output1 n w1 = (w1', Ok out1)
    /\ make_icon_round input2 output2 n w2 = (w2', Ok out2)
    /\ forall x y, 0 <= x < n -> 0 <= y < n ->
         alpha_of <$> getpixel out1 (x, y) = alpha_of <$> getpixel out2 (x, y)
         /\ alpha_of <$> getpixel out1 (x, y)
            = Some (if ellipse_covers (0, 0, n, n) x y then 255 else 0).
Proof.
  intros Hn Hin1 Hin2 Hout1 Hout2.
  eexists _, _, _, _.
  split; [apply make_icon_round_ok; eassumption |].
  split; [apply make_icon_round_ok; eassumption |].
  intros x y Hx Hy. rewrite !alpha_rounded by assumption. split; reflexivity.
Qed.

(** C10.  In the notification icon that [create_round_notification_icon]
    saves, every pixel inside the circle inscribed in the 256 by 256
    canvas and outside the white disc (inset by [256 // 6 = 42]) is opaque
    black, [(0, 0, 0, 255)]. *)
Theorem notification_ring_is_opaque_black w :
  "assets" ∈ dirs w ->
  exists w' im,
    create_round_notification_icon w = (w', Ok tt)
    /\ files w' !! "assets/notification-icon.png" = Some (PNG (ImRGBA im))
    /\ size im = (256, 256)
    /\ forall x y, 0 <= x < 256 -> 0 <= y < 256 ->
         (2 * x + 1 - 256) ^ 2 + (2 * y + 1 - 256) ^ 2 <= 256 ^ 2 ->
         (2 * x + 1 - 256) ^ 2 + (2 * y + 1 - 256) ^ 2 > (256 - 2 * (256 / 6)) ^ 2 ->
         getpixel im (x, y) = Some (0, 0, 0, 255).
Proof.
  intros Hd. eexists _, _.
  split; [apply create_round_notification_icon_ok; exact Hd |].
  split; [apply lookup_insert_eq |].
  split; [reflexivity |].
  intros x y Hx Hy Hin Hout.
  rewrite getpixel_in by (apply in_bounds_square; auto).
  cbn [at_]. f_equal. apply notification_ring; [exact Hin | exact Hout].
Qed.

(** C4.  Without the source file [create_all_round_icons] prints its
    error message and returns, and no file or directory has changed; with
    the source file it goes on and writes the round icons. *)
Theorem missing_source_aborts :
  (forall w,
     files w !! base_icon_path = None ->
     base_icon_path ∉ dirs w ->
     exists w',
       create_all_round_icons w = (w', Ok tt)
       /\ stdout w' = stdout w ++ [not_found_message]
       /\ files w' = files w /\ dirs w' = dirs w /\ opened w' = opened w)
  /\ (forall w im,
        files w !! base_icon_path = Some (PNG im) ->
        "assets" ∈ dirs w ->
        exists w',
          create_all_round_icons w = (w', Ok tt)
          /\ (forall p n, In (p, n) icons_to_create ->
                exists out,
                  files w' !! p = Some (PNG (ImRGBA out))
                  /\ size out = (n, n)
                  /\ forall x y, 0 <= x < n -> 0 <= y < n ->
                       alpha_of <$> getpixel out (x, y)
                       = Some (if ellipse_covers (0, 0, n, n) x y then 255 else 0))
          /\ is_Some (files w' !! "assets/notification-icon.png")).
Proof.
  split.
  - intros w Hin Hd. eexists.
    split; [apply create_all_round_icons_absent; assumption |].
    repeat split; reflexivity.
  - intros w im Hin Hd. eexists.
    split; [apply create_all_round_icons_ok; eassumption |].
    cbn [files]. split.
    + intros p n Hp. eexists.
      split; [apply round_icons_written; exact Hp |].
      split; [reflexivity |].
      intros x y Hx Hy. apply alpha_rounded; assumption.
    + rewrite lookup_insert_eq. eauto.
Qed.

End WithRenderer.

Lemma notification_ring_is_opaque_black_witness :
  exists w' im,
    create_round_notification_icon sample_world = (w', Ok tt)
    /\ files w' !! "assets/notification-icon.png" = Some (PNG (ImRGBA im))
    /\ getpixel im (30, 128) = Some (0, 0, 0, 255).
Proof.
  destruct (notification_ring_is_opaque_black sample_world sample_world_has_assets)
    as (w' & im & Hrun & Hfile & _ & Hpx).
  exists w', im. split; [exact Hrun |]. split; [exact Hfile |].
  apply Hpx; [lia | lia | vm_compute; discriminate | vm_compute; reflexivity].
Defined.

Lemma missing_source_aborts_witness :
  (exists w',
     create_all_round_icons (R := box_renderer) empty_world = (w', Ok tt)
     /\ stdout w' = [not_found_message] /\ files w' = ∅)
  /\ (exists w',
        create_all_round_icons (R := box_renderer) sample_world = (w', Ok tt)
        /\ is_Some (files w' !! "assets/favicon-16x16.png")).
Proof.
  destruct (missing_source_aborts (R := box_renderer)) as [Habsent Hpresent].
  split.
  - destruct (Habsent empty_world (lookup_empty _) (empty_world_has_no_dir _))
      as (w' & Hrun & Hout & Hfiles & _).
    exists w'. split; [exact Hrun |]. split; [exact Hout | exact Hfiles].
  - destruct (Hpresent sample_world white4 sample_world_has_icon sample_world_has_assets)
      as (w' & Hrun & Hicons & _).
    exists w'. split; [exact Hrun |].
    destruct (Hicons "assets/favicon-16x16.png" 16 ltac:(cbn; tauto))
      as (out & Hfile & _).
    rewrite Hfile. eauto.
Defined.

Lemma round_icon_opacity_witness :
  exists w' out,
    make_icon_round (R := box_renderer) base_icon_path "assets/icon.png" 4 sample_world
    = (w', Ok out)
    /\ alpha_of <$> getpixel out (2, 2) = Some 255
    /\ exists a, alpha_of <$> getpixel out (0, 0) = Some a /\ a < 255.
Proof.
  destruct (round_icon_opacity (R := box_renderer)
              base_icon_path "assets/icon.png" 4 sample_world white4
              ltac:(lia) sample_world_has_icon
              (sample_world_assets "assets/icon.png" eq_refl))
    as (w' & out & Hrun & Hc & Hfar).
  exists w', out. split; [exact Hrun |]. split; [exact Hc |].
  apply Hfar; lia.
Defined.

Lemma sample_world_clear_has_icon :
  files sample_world_clear !! base_icon_path = Some (PNG clear4).
Proof. apply lookup_singleton_eq. Qed.

Lemma sample_world_clear_assets p :
  parent_dir p = Some "assets" -> parent_exists sample_world_clear p = true.
Proof. intros H. apply (parent_exists_in _ _ _ H). cbn. set_solver. Qed.

Lemma alpha_independent_of_input_witness :
  exists w1' w2' out1 out2,
    make_icon_round (R := box_renderer) base_icon_path "assets/icon.png" 4 sample_world
    = (w1', Ok out1)
    /\ make_icon_round (R := box_renderer) base_icon_path "assets/icon.png" 4
         sample_world_clear
       = (w2', Ok out2)
    /\ alpha_of <$> getpixel out1 (1, 1) = alpha_of <$> getpixel out2 (1, 1)
    /\ alpha_of <$> getpixel out1 (1, 1) = Some 255.
Proof.
  destruct (alpha_independent_of_input (R := box_renderer) 4
              base_icon_path base_icon_path "assets/icon.png" "assets/icon.png"
              sample_world sample_world_clear white4 clear4
              ltac:(lia) sample_world_has_icon sample_world_clear_has_icon
              (sample_world_assets "assets/icon.png" eq_refl)
              (sample_world_clear_assets "assets/icon.png" eq_refl))
    as (w1' & w2' & out1 & out2 & Hr1 & Hr2 & Hpx).
  exists w1', w2', out1, out2. split; [exact Hr1 |]. split; [exact Hr2 |].
  apply (Hpx 1 1); lia.
Defined.

Lemma create_round_mask_spec_witness :
  (exists mask : raster gray,
     create_round_mask 4 = Ok mask
     /\ getpixel mask (0, 0) = Some 0 /\ getpixel mask (2, 2) = Some 255)
  /\ (exists w' out mask,
        make_icon_round (R := box_renderer) base_icon_path "assets/icon.png" 4 sample_world
        = (w', Ok out)
        /\ create_round_mask 4 = Ok mask
        /\ alpha_of <$> getpixel out (0, 0) = getpixel mask (0, 0)).
Proof.
  destruct (create_round_mask_spec (R := box_renderer)) as [Hmask Hrun].
  split.
  - destruct (Hmask 4 ltac:(lia)) as (mask & Hm & _ & Hpx & _).
    exists mask. split; [exact Hm |].
    split; [apply (Hpx 0 0); lia | apply (Hpx 2 2); lia].
  - destruct (Hrun 4 base_icon_path "assets/icon.png" sample_world white4
                ltac:(lia) sample_world_has_icon
                (sample_world_assets "assets/icon.png" eq_refl))
      as (w' & out & mask & Hr & Hm & _ & Hpx).
    exists w', out, mask. split; [exact Hr |]. split; [exact Hm |].
    apply Hpx; lia.
Defined.

End MakeRoundIconClaims.

(** ** generate-app-icon.py *)

Module GenerateAppIconFacts.
Import Pillow OS PillowFacts OSFacts GenerateAppIcon.
Local Open Scope script_scope.

(** *** Paths below the working directory *)

Lemma append_inj_l (a b c : string) : a +:+ b = a +:+ c -> b = c.
Proof. induction a as [| x a IH]; cbn; [auto | intros [= H]; auto]. Qed.

Lemma ends_with_sep_app (p : string) c s :
  ends_with_sep (p +:+ String c s) = ends_with_sep (String c s).
Proof.
  induction p as [| x p IH]; [reflexivity |].
  change (String x p +:+ String c s) with (String x (p +:+ String c s)).
  cbn [ends_with_sep]. destruct (p +:+ String c s) eqn:E.
  - destruct p; discriminate.
  - exact IH.
Qed.

Lemma append_nonempty (p : string) c s : String.eqb (p +:+ String c s) "" = false.
Proof. destruct p; reflexivity. Qed.

Lemma os_path_join_assets c :
  exists x s,
    os_path_join c "assets" = c +:+ String x s /\ ends_with_sep (String x s) = false.
Proof.
  unfold os_path_join. change (starts_with_sep "assets") with false. cbv iota.
  destruct (String.eqb c "" || ends_with_sep c).
  - eexists _, _. split; reflexivity.
  - eexists _, _. split; reflexivity.
Qed.

Lemma os_path_join_in_assets c n :
  starts_with_sep n = false ->
  os_path_join (os_path_join c "assets") n = os_path_join c "assets" +:+ "/" +:+ n.
Proof.
  intros Hn. destruct (os_path_join_assets c) as (x & s & -> & Hs).
  unfold os_path_join. rewrite Hn, append_nonempty, ends_with_sep_app, Hs. reflexivity.
Qed.

Lemma parent_dir_app d n :
  parent_dir n = None -> parent_dir (d +:+ "/" +:+ n) = Some d.
Proof.
  intros Hn. induction d as [| x d IH].
  - change ("" +:+ "/" +:+ n) with (String (Ascii.ascii_of_nat 47) n).
    cbn [parent_dir]. rewrite Hn. reflexivity.
  - change (String x d +:+ "/" +:+ n) with (String x (d +:+ "/" +:+ n)).
    cbn [parent_dir]. rewrite IH. reflexivity.
Qed.

Lemma asset_parent_exists w c n :
  starts_with_sep n = false ->
  parent_dir n = None ->
  os_path_join c "assets" ∈ dirs w ->
  parent_exists w (os_path_join (os_path_join c "assets") n) = true.
Proof.
  intros Hs Hn Hd. apply (parent_exists_in _ _ (os_path_join c "assets")); [| exact Hd].
  rewrite os_path_join_in_assets by exact Hs. apply parent_dir_app. exact Hn.
Qed.

Lemma asset_paths_differ c n1 n2 :
  starts_with_sep n1 = false -> starts_with_sep n2 = false -> n1 <> n2 ->
  os_path_join (os_path_join c "assets") n1 <> os_path_join (os_path_join c "assets") n2.
Proof.
  intros H1 H2 Hne E. rewrite !os_path_join_in_assets in E by assumption.
  apply append_inj_l in E. apply (append_inj_l "/") in E. auto.
Qed.

(** *** The gradient *)

(** Case analysis on every integer comparison of the goal. *)
Ltac Zbool_cases :=
  repeat match goal with
    | |- context [?a <=? ?b] => destruct (Z.leb_spec a b)
    | |- context [?a <? ?b] => destruct (Z.ltb_spec a b)
    | |- context [?a =? ?b] => destruct (Z.eqb_spec a b)
    end;
  cbn [andb orb negb]; try reflexivity; try congruence; try lia.

Lemma range_succ (n : nat) :
  range (Z.of_nat (S n)) = range (Z.of_nat n) ++ [Z.of_nat n].
Proof. unfold range. rewrite !Nat2Z.id, seq_S, map_app. reflexivity. Qed.

Lemma size_fold_left {A B} (f : raster A -> B -> raster A) l :
  (forall r b, size (f r b) = size r) ->
  forall r, size (fold_left f l r) = size r.
Proof.
  intros Hf. induction l as [| b l IH]; intros r; cbn; [reflexivity |].
  rewrite IH. apply Hf.
Qed.

Lemma size_gradient_background n img : size (gradient_background n img) = size img.
Proof. unfold gradient_background. apply size_fold_left. reflexivity. Qed.

(** After the rows [0 .. n-1] have been drawn, each of them holds its own
    colour from column 0 to column [size], and the other rows are as they
    were. *)
Lemma gradient_rows size img (n : nat) x y :
  0 <= size ->
  at_ (fold_left
         (fun img y => line_horizontal 0 size y (gradient_color size y) img)
         (range (Z.of_nat n)) img) x y
  = if (0 <=? y) && (y <? Z.of_nat n) && (0 <=? x) && (x <=? size)
    then gradient_color size y
    else at_ img x y.
Proof.
  intros Hsize. induction n as [| n IH].
  - change (range (Z.of_nat 0)) with (@nil Z). cbn [fold_left]. Zbool_cases.
  - rewrite range_succ, fold_left_app. cbn [fold_left line_horizontal paint at_].
    rewrite IH. unfold hline_covers.
    rewrite Z.min_l, Z.max_r by lia.
    Zbool_cases.
Qed.

Lemma gradient_background_at size img x y :
  0 <= size -> 0 <= x < size -> 0 <= y < size ->
  at_ (gradient_background size img) x y = gradient_color size y.
Proof.
  intros Hs Hx Hy. unfold gradient_background. cbv zeta.
  replace (range size) with (range (Z.of_nat (Z.to_nat size)))
    by (rewrite Z2Nat.id; [reflexivity | exact Hs]).
  rewrite gradient_rows by exact Hs.
  rewrite Z2Nat.id by exact Hs.
  Zbool_cases.
Qed.

(** Truncation of a quotient by 1024, for the two shapes of the loop. *)
Lemma py_int_plus_quotient a :
  0 <= a -> py_int (0 + inject_Z a / inject_Z 1024) = a / 1024.
Proof.
  intros Ha. unfold py_int, Qdiv, Qplus, Qmult, Qinv, inject_Z. cbn [Qnum Qden].
  change (Z.pos (1 * (1 * 1024))) with 1024.
  rewrite Z.quot_div_nonneg by lia. f_equal. lia.
Qed.

Lemma py_int_minus_quotient c a :
  0 <= a <= c * 1024 -> py_int (inject_Z c - inject_Z a / inject_Z 1024) = (c * 1024 - a) / 1024.
Proof.
  intros Ha. unfold py_int, Qdiv, Qminus, Qplus, Qopp, Qmult, Qinv, inject_Z.
  cbn [Qnum Qden].
  change (Z.pos (1 * (1 * 1024))) with 1024. change (Z.pos (1 * 1024)) with 1024.
  rewrite Z.quot_div_nonneg by lia. f_equal. lia.
Qed.

Lemma gradient_color_1024 y :
  0 <= y <= 1024 ->
  gradient_color 1024 y
  = (10 * y / 1024, (245 * 1024 - 50 * y) / 1024, (255 * 1024 - 100 * y) / 1024).
Proof.
  intros Hy. unfold gradient_color.
  rewrite py_int_plus_quotient by lia.
  rewrite (py_int_minus_quotient 245) by lia.
  rewrite (py_int_minus_quotient 255) by lia.
  reflexivity.
Qed.

Section WithRenderer.
Context {R : Renderer}.

Lemma draw_artwork_ok : exists art, draw_artwork = Ok art /\ size art = (1024, 1024).
Proof.
  unfold draw_artwork. cbv zeta.
  rewrite !Image_new_ok by lia.
  unfold alpha_composite.
  cbn [convert_RGBA size rounded_rectangle paint]. rewrite size_gradient_background.
  cbn [size]. rewrite size_eqb_refl.
  eexists. split; [reflexivity |].
  rewrite !size_fold_left by reflexivity. reflexivity.
Qed.

Lemma size_draw_label font img : size (draw_label font img) = size img.
Proof. reflexivity. Qed.

Lemma load_font_run w :
  try_except (ImageFont_truetype font_path (1024 / 20)) ImageFont_load_default w
  = (log_open font_path w,
     Ok (if holds_font w font_path then FreeTypeFont font_path 51 else DefaultFont)).
Proof.
  unfold try_except, ImageFont_truetype, holds_font.
  destruct (files w !! font_path) as [[] |]; reflexivity.
Qed.

Lemma create_educational_icon_run w :
  exists art,
    draw_artwork = Ok art
    /\ size art = (1024, 1024)
    /\ create_educational_icon w
       = (log_open font_path w,
          Ok (draw_label
                (if holds_font w font_path then FreeTypeFont font_path 51 else DefaultFont)
                art)).
Proof.
  destruct draw_artwork_ok as (art & Hart & Hsize).
  exists art. split; [exact Hart |]. split; [exact Hsize |].
  unfold create_educational_icon. cbv zeta.
  unfold bind at 1, lift at 1. rewrite Hart.
  erewrite bind_ok; [| apply load_font_run]. reflexivity.
Qed.

Lemma create_notification_icon_ok :
  exists notif, create_notification_icon = Ok notif /\ size notif = (256, 256).
Proof.
  unfold create_notification_icon. cbv zeta. rewrite Image_new_ok by lia.
  eexists. split; reflexivity.
Qed.

(** What [save_app_icons] does when nothing but a directory may sit at the
    place of the assets directory. *)
Lemma save_app_icons_ok base_image w :
  files w !! os_path_join (cwd w) "assets" = None ->
  exists favicon notif,
    resize base_image (32, 32) = Ok favicon
    /\ size_of favicon = (32, 32)
    /\ create_notification_icon = Ok notif
    /\ size notif = (256, 256)
    /\ save_app_icons base_image w
       = (World (cwd w)
            (write_app_icons (os_path_join (cwd w) "assets") base_image favicon notif
               (files w))
            ({[ os_path_join (cwd w) "assets" ]} ∪ dirs w)
            (stdout w ++ app_icon_messages (os_path_join (cwd w) "assets"))
            (opened w),
          Ok tt).
Proof.
  intros Hfree.
  destruct (resize_ok base_image 32 ltac:(lia)) as (favicon & Hfav & Hfs).
  destruct create_notification_icon_ok as (notif & Hnotif & Hns).
  exists favicon, notif. repeat (split; [assumption |]).
  unfold save_app_icons. unfold bind at 1, os_getcwd at 1. cbv zeta.
  unfold bind at 1, os_makedirs at 1. rewrite Hfree.
  assert (Hsave : forall w' im n,
            dirs w' = {[ os_path_join (cwd w) "assets" ]} ∪ dirs w ->
            starts_with_sep n = false -> parent_dir n = None ->
            Image_save im (os_path_join (os_path_join (cwd w) "assets") n) w'
            = (saved (os_path_join (os_path_join (cwd w) "assets") n) im w', Ok tt)).
  { intros w' im n Hd Hs Hp. apply Image_save_ok.
    apply asset_parent_exists; [exact Hs | exact Hp |].
    rewrite Hd. apply elem_of_union_l, elem_of_singleton. reflexivity. }
  erewrite bind_ok; [| apply Hsave; reflexivity].
  unfold bind at 1, print at 1.
  erewrite bind_ok; [| apply Hsave; reflexivity].
  unfold bind at 1, print at 1.
  erewrite bind_ok; [| apply Hsave; reflexivity].
  unfold bind at 1, print at 1.
  unfold bind at 1, lift at 1. rewrite Hnotif.
  erewrite bind_ok; [| apply Hsave; reflexivity].
  unfold bind at 1, print at 1.
  unfold bind at 1, lift at 1. rewrite Hfav.
  erewrite bind_ok; [| apply Hsave; reflexivity].
  unfold print. f_equal.
  apply world_eq; autorewrite with world; cbn [cwd files dirs stdout opened];
    try reflexivity.
  unfold app_icon_messages. rewrite <- !app_assoc. reflexivity.
Qed.

Lemma generator_main_ok w :
  files w !! os_path_join (cwd w) "assets" = None ->
  exists art favicon notif,
    let icon :=
      draw_label
        (if holds_font w font_path then FreeTypeFont font_path 51 else DefaultFont) art in
    draw_artwork = Ok art
    /\ size icon = (1024, 1024)
    /\ resize (ImRGB icon) (32, 32) = Ok favicon
    /\ size_of favicon = (32, 32)
    /\ create_notification_icon = Ok notif
    /\ size notif = (256, 256)
    /\ main w
       = (World (cwd w)
            (write_app_icons (os_path_join (cwd w) "assets") (ImRGB icon) favicon notif
               (files w))
            ({[ os_path_join (cwd w) "assets" ]} ∪ dirs w)
            (stdout w
               ++ ["🎨 Generating custom EduDashPro app icons..."]
               ++ app_icon_messages (os_path_join (cwd w) "assets")
               ++ [ newline +:+ "🎉 Custom app icons generated successfully!";
                    "📱 Your app will now use a professional educational-themed icon";
                    "🔄 Run your build again to see the new icons" ])
            (opened w ++ [font_path]),
          Ok tt).
Proof.
  intros Hfree.
  destruct (create_educational_icon_run
              (printed "🎨 Generating custom EduDashPro app icons..." w))
    as (art & Hart & Hsize & Hicon).
  change (holds_font (printed _ w) font_path) with (holds_font w font_path) in Hicon.
  set (icon := draw_label _ art) in Hicon.
  destruct (save_app_icons_ok (ImRGB icon)
              (log_open font_path (printed "🎨 Generating custom EduDashPro app icons..." w))
              Hfree)
    as (favicon & notif & Hfav & Hfs & Hnotif & Hns & Hsave).
  exists art, favicon, notif. cbv zeta. fold icon.
  repeat (split; [assumption |]).
  unfold main. unfold bind at 1, print at 1.
  erewrite bind_ok; [| exact Hicon].
  erewrite bind_ok; [| exact Hsave].
  unfold bind, print. f_equal.
  apply world_eq; autorewrite with world; cbn [cwd files dirs stdout opened];
    try reflexivity.
  rewrite <- !app_assoc. reflexivity.
Qed.

End WithRenderer.

(** The five files, looked up one by one, and the frame. *)
Lemma write_app_icons_lookup c base_image favicon notif fs :
  let d := os_path_join c "assets" in
  let fs' := write_app_icons d base_image favicon notif fs in
  fs' !! os_path_join d "icon.png" = Some (PNG base_image)
  /\ fs' !! os_path_join d "adaptive-icon.png" = Some (PNG base_image)
  /\ fs' !! os_path_join d "splash-icon.png" = Some (PNG base_image)
  /\ fs' !! os_path_join d "notification-icon.png" = Some (PNG (ImRGBA notif))
  /\ fs' !! os_path_join d "favicon.png" = Some (PNG favicon)
  /\ forall p,
       ~ In p (map (os_path_join d)
                 ["icon.png"; "adaptive-icon.png"; "splash-icon.png";
                  "notification-icon.png"; "favicon.png"]) ->
       fs' !! p = fs !! p.
Proof.
  cbv zeta. unfold write_app_icons.
  assert (Hne : forall n1 n2,
            starts_with_sep n1 = false -> starts_with_sep n2 = false -> n1 <> n2 ->
            os_path_join (os_path_join c "assets") n1
            <> os_path_join (os_path_join c "assets") n2)
    by (intros; apply asset_paths_differ; assumption).
  repeat split.
  - repeat (rewrite lookup_insert_ne by (apply Hne; [reflexivity | reflexivity | discriminate])).
    apply lookup_insert_eq.
  - repeat (rewrite lookup_insert_ne by (apply Hne; [reflexivity | reflexivity | discriminate])).
    apply lookup_insert_eq.
  - repeat (rewrite lookup_insert_ne by (apply Hne; [reflexivity | reflexivity | discriminate])).
    apply lookup_insert_eq.
  - repeat (rewrite lookup_insert_ne by (apply Hne; [reflexivity | reflexivity | discriminate])).
    apply lookup_insert_eq.
  - apply lookup_insert_eq.
  - intros p Hp. cbn [map In] in Hp.
    repeat (rewrite lookup_insert_ne by (intros E; apply Hp; rewrite E; tauto)).
    reflexivity.
Qed.

End GenerateAppIconFacts.

Module GenerateAppIconClaims.
Import Pillow OS PillowFacts OSFacts GenerateAppIcon GenerateAppIconFacts.
Local Open Scope script_scope.

(** C2.  The gradient loop of [create_educational_icon] ([size = 1024])
    fills each row [y] of the canvas with one RGB triple,
    [(int(10*y/size), int(245 - 50*y/size), int(255 - 100*y/size))], which
    is the linear interpolation between [(0, 245, 255)] at [y = 0] and
    [(10, 195, 155)] at [y = size], each channel cut to an integer. *)
Theorem gradient_rows_are_interpolated (img : raster rgb) x y :
  size img = (1024, 1024) ->
  0 <= x < 1024 ->
  0 <= y < 1024 ->
  getpixel (gradient_background 1024 img) (x, y) = Some (gradient_color 1024 y)
  /\ gradient_color 1024 y = (lerp 0 10 y, lerp 245 195 y, lerp 255 155 y)
  /\ gradient_color 1024 0 = (0, 245, 255)
  /\ (lerp 0 10 1024, lerp 245 195 1024, lerp 255 155 1024) = (10, 195, 155).
Proof.
  intros Hs Hx Hy. split; [| split; [| split]].
  - rewrite getpixel_in
      by (rewrite size_gradient_background, Hs; apply in_bounds_square; auto).
    f_equal. apply gradient_background_at; lia.
  - rewrite gradient_color_1024 by lia. unfold lerp.
    repeat f_equal; lia.
  - reflexivity.
  - reflexivity.
Qed.

Lemma gradient_rows_are_interpolated_witness :
  getpixel
    (gradient_background 1024 (Raster (1024, 1024) (fun _ _ => (0, 245, 255))))
    (7, 512)
  = Some (gradient_color 1024 512)
  /\ gradient_color 1024 512 = (5, 220, 205).
Proof.
  destruct (gradient_rows_are_interpolated
              (Raster (1024, 1024) (fun _ _ => (0, 245, 255))) 7 512
              eq_refl ltac:(lia) ltac:(lia))
    as (Hpx & Hcol & _).
  split; [exact Hpx | exact Hcol].
Defined.

Section WithRenderer.
Context {R : Renderer}.

(** C8.  When the font file cannot be loaded, [create_educational_icon]
    takes the default font of the library, finishes and returns the
    1024 by 1024 icon. *)
Theorem font_fallback w :
  holds_font w font_path = false ->
  exists art icon,
    draw_artwork = Ok art
    /\ icon = draw_label DefaultFont art
    /\ size icon = (1024, 1024)
    /\ create_educational_icon w = (log_open font_path w, Ok icon).
Proof.
  intros Hfont.
  destruct (create_educational_icon_run w) as (art & Hart & Hsize & Hrun).
  rewrite Hfont in Hrun.
  exists art, (draw_label DefaultFont art).
  split; [exact Hart |]. split; [reflexivity |]. split; [exact Hsize | exact Hrun].
Qed.

End WithRenderer.

Lemma font_fallback_witness :
  exists art icon,
    draw_artwork (R := box_renderer) = Ok art
    /\ icon = draw_label (R := box_renderer) DefaultFont art
    /\ size icon = (1024, 1024)
    /\ create_educational_icon (R := box_renderer) bare_world
       = (log_open font_path bare_world, Ok icon).
Proof. exact (font_fallback (R := box_renderer) bare_world eq_refl). Defined.

End GenerateAppIconClaims.

(** ** Both scripts *)

Module IconClaims.
Import Pillow OS PillowFacts OSFacts.
Import MakeRoundIcon MakeRoundIconFacts MakeRoundIconClaims.
Import GenerateAppIconFacts.

Section WithRenderer.
Context {R : Renderer}.

(** C5.  Every image either script writes is square, of the size asked
    for: [make_icon_round] writes a [size] by [size] image whatever the
    size of its input, so each entry [(path, size)] of the fixed list
    holds a [size] by [size] image (and the round notification icon is
    256 by 256); the generator writes [icon.png], [adaptive-icon.png] and
    [splash-icon.png] at 1024 by 1024, the notification icon at 256 by 256
    and the favicon at 32 by 32. *)
Theorem written_images_have_requested_sizes :
  (forall input output n w im,
     0 < n ->
     files w !! input = Some (PNG im) ->
     parent_exists w output = true ->
     exists w' out,
       make_icon_round input output n w = (w', Ok out)
       /\ size out = (n, n)
       /\ files w' !! output = Some (PNG (ImRGBA out)))
  /\ (forall w im,
        files w !! base_icon_path = Some (PNG im) ->
        "assets" ∈ dirs w ->
        exists w',
          create_all_round_icons w = (w', Ok tt)
          /\ (forall p n, In (p, n) icons_to_create ->
                exists out, files w' !! p = Some (PNG out) /\ size_of out = (n, n))
          /\ exists out,
               files w' !! "assets/notification-icon.png" = Some (PNG out)
               /\ size_of out = (256, 256))
  /\ (forall w,
        files w !! os_path_join (cwd w) "assets" = None ->
        exists w',
          GenerateAppIcon.main w = (w', Ok tt)
          /\ (forall name,
                In name ["icon.png"; "adaptive-icon.png"; "splash-icon.png"] ->
                exists out,
                  files w' !! os_path_join (os_path_join (cwd w) "assets") name = Some (PNG out)
                  /\ size_of out = (1024, 1024))
          /\ (exists out,
                files w' !! os_path_join (os_path_join (cwd w) "assets") "notification-icon.png"
                = Some (PNG out)
                /\ size_of out = (256, 256))
          /\ (exists out,
                files w' !! os_path_join (os_path_join (cwd w) "assets") "favicon.png" = Some (PNG out)
                /\ size_of out = (32, 32))).
Proof.
  split; [| split].
  - intros input output n w im Hn Hin Hout. eexists _, _.
    split; [apply make_icon_round_ok; eassumption |].
    split; [reflexivity |]. apply lookup_insert_eq.
  - intros w im Hin Hd. eexists.
    split; [apply create_all_round_icons_ok; eassumption |].
    cbn [files]. split.
    + intros p n Hp. eexists. split; [apply round_icons_written; exact Hp | reflexivity].
    + eexists. split; [apply lookup_insert_eq | reflexivity].
  - intros w Hfree.
    destruct (generator_main_ok w Hfree)
      as (art & favicon & notif & _ & Hsize & _ & Hfs & _ & Hns & Hrun).
    cbv zeta in Hsize, Hrun.
    eexists. split; [exact Hrun |]. cbn [files].
    match goal with
    | |- context [GenerateAppIcon.write_app_icons _ ?b ?f ?n ?fs] =>
        destruct (write_app_icons_lookup (cwd w) b f n fs)
          as (Hicon & Hadaptive & Hsplash & Hnotif & Hfav & _)
    end.
    cbv zeta in Hicon, Hadaptive, Hsplash, Hnotif, Hfav.
    split; [| split].
    + intros name [<- | [<- | [<- | []]]]; eexists; (split; [eassumption | exact Hsize]).
    + eexists. split; [exact Hnotif | exact Hns].
    + eexists. split; [exact Hfav | exact Hfs].
Qed.


(** C7, amended.  Every variant keeps the colours of its base image
    resized to the variant's size: the favicon of [save_app_icons] is the
    base image resized to 32 by 32 and the three large icons are the base
    image itself; the output of [make_icon_round] has at each pixel the
    RGB values of the input resized to [size] by [size] (and converted to
    RGBA), and its alpha is the circular mask. *)
Theorem variants_keep_resized_colours :
  (forall base_image w,
     files w !! os_path_join (cwd w) "assets" = None ->
     exists w' favicon,
       GenerateAppIcon.save_app_icons base_image w = (w', Ok tt)
       /\ resize base_image (32, 32) = Ok favicon
       /\ files w' !! os_path_join (os_path_join (cwd w) "assets") "favicon.png"
          = Some (PNG favicon)
       /\ forall name,
            In name ["icon.png"; "adaptive-icon.png"; "splash-icon.png"] ->
            files w' !! os_path_join (os_path_join (cwd w) "assets") name
            = Some (PNG base_image))
  /\ (forall input output n w im,
        0 < n ->
        files w !! input = Some (PNG im) ->
        parent_exists w output = true ->
        exists w' out icon,
          make_icon_round input output n w = (w', Ok out)
          /\ resize im (n, n) = Ok icon
          /\ size out = (n, n)
          /\ forall x y, 0 <= x < n -> 0 <= y < n ->
               rgb_of <$> getpixel out (x, y)
               = rgb_of <$> getpixel (convert_RGBA icon) (x, y)
               /\ alpha_of <$> getpixel out (x, y)
                  = Some (if ellipse_covers (0, 0, n, n) x y then 255 else 0)).
Proof.
  split.
  - intros base_image w Hfree.
    destruct (save_app_icons_ok base_image w Hfree)
      as (favicon & notif & Hfav & _ & _ & _ & Hrun).
    eexists _, favicon. split; [exact Hrun |]. split; [exact Hfav |].
    cbn [files].
    destruct (write_app_icons_lookup (cwd w) base_image favicon notif (files w))
      as (Hicon & Hadaptive & Hsplash & _ & Hf & _).
    cbv zeta in Hicon, Hadaptive, Hsplash, Hf.
    split; [exact Hf |].
    intros name [<- | [<- | [<- | []]]]; assumption.
  - intros input output n w im Hn Hin Hout.
    destruct (resize_ok im n Hn) as (icon & Hicon & Hsize).
    eexists _, _, icon.
    split; [apply make_icon_round_ok; eassumption |].
    split; [exact Hicon |]. split; [reflexivity |].
    intros x y Hx Hy.
    assert (Hprep : prepared im n = convert_RGBA icon)
      by (unfold prepared; rewrite Hicon; reflexivity).
    rewrite Hprep. split.
    + apply rgb_rounded; [| assumption | assumption].
      rewrite size_convert_RGBA. exact Hsize.
    + apply alpha_rounded; assumption.
Qed.

End WithRenderer.

Lemma written_images_have_requested_sizes_witness :
  (exists w' out,
     make_icon_round (R := box_renderer) base_icon_path "assets/icon.png" 4 sample_world
     = (w', Ok out)
     /\ size out = (4, 4))
  /\ (exists w' out,
        create_all_round_icons (R := box_renderer) sample_world = (w', Ok tt)
        /\ files w' !! "assets/favicon-48x48.png" = Some (PNG out)
        /\ size_of out = (48, 48))
  /\ (exists w' out,
        GenerateAppIcon.main (R := box_renderer) GenerateAppIcon.bare_world = (w', Ok tt)
        /\ files w' !! "/work/assets/favicon.png" = Some (PNG out)
        /\ size_of out = (32, 32)).
Proof.
  destruct (written_images_have_requested_sizes (R := box_renderer))
    as (Hone & Hround & Hgen).
  split; [| split].
  - destruct (Hone base_icon_path "assets/icon.png" 4 sample_world white4
                ltac:(lia) sample_world_has_icon
                (sample_world_assets "assets/icon.png" eq_refl))
      as (w' & out & Hrun & Hsize & _).
    exists w', out. split; [exact Hrun | exact Hsize].
  - destruct (Hround sample_world white4 sample_world_has_icon
                sample_world_has_assets)
      as (w' & Hrun & Hicons & _).
    destruct (Hicons "assets/favicon-48x48.png" 48 ltac:(cbn; tauto))
      as (out & Hfile & Hsize).
    exists w', out. split; [exact Hrun |]. split; [exact Hfile | exact Hsize].
  - destruct (Hgen GenerateAppIcon.bare_world (lookup_empty _))
      as (w' & Hrun & _ & _ & (out & Hfile & Hsize)).
    exists w', out. split; [exact Hrun |]. split; [exact Hfile | exact Hsize].
Defined.



Lemma variants_keep_resized_colours_witness :
  (exists w' favicon,
     GenerateAppIcon.save_app_icons (R := box_renderer) white4 GenerateAppIcon.bare_world
     = (w', Ok tt)
     /\ resize (R := box_renderer) white4 (32, 32) = Ok favicon
     /\ files w' !! "/work/assets/favicon.png" = Some (PNG favicon))
  /\ (exists w' out icon,
        make_icon_round (R := box_renderer) base_icon_path "assets/icon.png" 4 sample_world
        = (w', Ok out)
        /\ resize (R := box_renderer) white4 (4, 4) = Ok icon
        /\ rgb_of <$> getpixel out (0, 0) = rgb_of <$> getpixel (convert_RGBA icon) (0, 0)
        /\ alpha_of <$> getpixel out (0, 0) = Some 0).
Proof.
  destruct (variants_keep_resized_colours (R := box_renderer)) as (Hfav & Hround).
  split.
  - destruct (Hfav white4 GenerateAppIcon.bare_world (lookup_empty _))
      as (w' & favicon & Hrun & Hres & Hfile & _).
    exists w', favicon. split; [exact Hrun |]. split; [exact Hres | exact Hfile].
  - destruct (Hround base_icon_path "assets/icon.png" 4 sample_world white4
                ltac:(lia) sample_world_has_icon
                (sample_world_assets "assets/icon.png" eq_refl))
      as (w' & out & icon & Hrun & Hres & _ & Hpx).
    exists w', out, icon. split; [exact Hrun |]. split; [exact Hres |].
    apply (Hpx 0 0); lia.
Defined.


(** C7 as stated fails on [make_icon_round]: on the opaque white 4 by 4
    picture, already of the target size, the corner pixel comes out
    transparent, so the output is not the resized input. *)
Lemma round_icon_is_no_resized_copy :
  exists w' out,
    make_icon_round (R := box_renderer) base_icon_path "assets/icon.png" 4 sample_world
    = (w', Ok out)
    /\ getpixel out (0, 0) = Some (255, 255, 255, 0)
    /\ getpixel (convert_RGBA white4) (0, 0) = Some (255, 255, 255, 255)
    /\ ~ resized_copy (R := box_renderer) white4 4 out.
Proof.
  eexists _, _.
  split; [apply (make_icon_round_ok (R := box_renderer) _ _ 4 sample_world white4);
          [lia | exact sample_world_has_icon
           | exact (sample_world_assets "assets/icon.png" eq_refl)] |].
  split; [reflexivity |]. split; [reflexivity |].
  intros (icon & Hres & _ & Hpx).
  change (4, 4) with (size_of white4) in Hres. rewrite resize_same in Hres.
  injection Hres as <-. specialize (Hpx 0 0 ltac:(lia) ltac:(lia)).
  discriminate Hpx.
Qed.

End IconClaims.

(** ** Further behaviour of make-round-icon.py *)

Module RoundIconBehaviour.
Import Pillow OS PillowFacts OSFacts MakeRoundIcon MakeRoundIconFacts.
Import MakeRoundIconClaims.
Local Open Scope script_scope.

Lemma with_alpha_twice p a b : with_alpha (with_alpha p a) b = with_alpha p b.
Proof. destruct p as [[[? ?] ?] ?]. reflexivity. Qed.

Lemma alpha_with_alpha p a : alpha_of (with_alpha p a) = a.
Proof. destruct p as [[[? ?] ?] ?]. reflexivity. Qed.

Lemma sample_world_no_assets_empty p : p ∉ dirs sample_world_no_assets.
Proof. cbn. set_solver. Qed.


Section WithRenderer.
Context {R : Renderer}.











(** X3.  An input that already has the target size is not resampled:
    the colours of the output are those of the input (after the
    conversion to RGBA), whatever the resampling filter would do. *)
Theorem same_size_input_keeps_colours input output n w im :
  0 < n ->
  size_of im = (n, n) ->
  files w !! input = Some (PNG im) ->
  parent_exists w output = true ->
  exists w' out,
    make_icon_round input output n w = (w', Ok out)
    /\ forall x y, 0 <= x < n -> 0 <= y < n ->
         rgb_of <$> getpixel out (x, y) = rgb_of <$> getpixel (convert_RGBA im) (x, y).
Proof.
  intros Hn Hs Hin Hout. eexists _, _.
  split; [apply make_icon_round_ok; eassumption |].
  intros x y Hx Hy.
  assert (Hprep : prepared im n = convert_RGBA im)
    by (unfold prepared; rewrite <- Hs, resize_same; reflexivity).
  rewrite Hprep. apply rgb_rounded; [| assumption | assumption].
  rewrite size_convert_RGBA. exact Hs.
Qed.

(** X4.  Rounding is idempotent: [make_icon_round] run on a file it has
    written, at the same size, returns the same picture. *)
Theorem make_icon_round_idempotent input output output' n w im :
  0 < n ->
  files w !! input = Some (PNG im) ->
  parent_exists w output = true ->
  parent_exists w output' = true ->
  exists w1 out1 w2 out2,
    make_icon_round input output n w = (w1, Ok out1)
    /\ make_icon_round output output' n w1 = (w2, Ok out2)
    /\ size out2 = size out1
    /\ forall x y, getpixel out2 (x, y) = getpixel out1 (x, y).
Proof.
  intros Hn Hin Hout Hout'.
  eexists _, _, _, _.
  split; [apply make_icon_round_ok; eassumption |].
  split; [apply make_icon_round_ok; [exact Hn | apply lookup_insert_eq | exact Hout'] |].
  split; [reflexivity |].
  intros x y.
  assert (Hprep : prepared (ImRGBA (rounded (prepared im n) n)) n
                  = rounded (prepared im n) n).
  { unfold prepared at 1.
    change (n, n) with (size_of (ImRGBA (rounded (prepared im n) n))) at 1.
    rewrite resize_same. reflexivity. }
  rewrite Hprep. unfold getpixel. cbn [size rounded fst snd].
  destruct (in_bounds (n, n) x y) eqn:Hb; [| reflexivity].
  f_equal. cbn [at_ rounded size]. rewrite !Z.sub_0_r, Hb.
  apply with_alpha_twice.
Qed.

(** X5.  The alpha of a round icon is binary: every pixel is either fully
    transparent or fully opaque, there is no partial transparency. *)
Theorem round_icon_alpha_is_binary input output n w im :
  0 < n ->
  files w !! input = Some (PNG im) ->
  parent_exists w output = true ->
  exists w' out,
    make_icon_round input output n w = (w', Ok out)
    /\ forall x y, 0 <= x < n -> 0 <= y < n ->
         alpha_of <$> getpixel out (x, y) = Some 0
         \/ alpha_of <$> getpixel out (x, y) = Some 255.
Proof.
  intros Hn Hin Hout. eexists _, _.
  split; [apply make_icon_round_ok; eassumption |].
  intros x y Hx Hy. rewrite alpha_rounded by assumption.
  destruct (ellipse_covers (0, 0, n, n) x y); [right | left]; reflexivity.
Qed.




(** X7.  Without the source, [main] still ends normally and still prints
    its closing lines: the error message is followed by "All icons are now
    perfectly round!", although no file was written. *)
Theorem main_reports_success_without_source w :
  files w !! base_icon_path = None ->
  base_icon_path ∉ dirs w ->
  exists w',
    main w = (w', Ok tt)
    /\ files w' = files w
    /\ stdout w'
       = stdout w
         ++ [ "🔄 Making EduDashPro icons round...";
              "❌ Original icon not found at /home/king/Downloads/edp.png";
              newline +:+ "🎉 All icons are now perfectly round!";
              "🔄 The new round icons will appear after you refresh your browser/app" ].
Proof.
  intros Hin Hd. eexists. split; [apply round_main_absent; assumption |].
  split; reflexivity.
Qed.


(** X9.  The script can be run again: a second [create_all_round_icons]
    reads the untouched source and leaves exactly the files of the first
    run. *)
Theorem create_all_round_icons_rerun w im :
  files w !! base_icon_path = Some (PNG im) ->
  "assets" ∈ dirs w ->
  exists w1 w2,
    create_all_round_icons w = (w1, Ok tt)
    /\ files w1 !! base_icon_path = Some (PNG im)
    /\ create_all_round_icons w1 = (w2, Ok tt)
    /\ files w2 = files w1
    /\ dirs w2 = dirs w1.
Proof.
  intros Hin Hd.
  assert (Hbase : forall extra fs,
            fs !! base_icon_path = Some (PNG im) ->
            (<[notification_path := extra]> (write_round_icons im icons_to_create fs))
              !! base_icon_path = Some (PNG im)).
  { intros extra fs Hfs. rewrite round_icons_frame; [exact Hfs | discriminate |].
    cbn. intros H. intuition discriminate. }
  eexists _, _.
  split; [apply (create_all_round_icons_ok _ im); assumption |].
  cbn [files dirs].
  split; [apply Hbase; exact Hin |].
  split; [apply (create_all_round_icons_ok _ im); [apply Hbase; exact Hin | exact Hd] |].
  cbn [files dirs]. split; [| reflexivity].
  apply map_eq. intros p.
  destruct (decide (p = notification_path)) as [-> | Hn].
  { rewrite !lookup_insert_eq. reflexivity. }
  destruct (in_dec String.string_dec p (map fst icons_to_create)) as [Hp | Hp].
  - apply in_map_iff in Hp. destruct Hp as ([q n] & <- & Hq). cbn [fst].
    rewrite !(round_icons_written im _ _ q n Hq). reflexivity.
  - rewrite (round_icons_frame im _ _ p Hn Hp). reflexivity.
Qed.

End WithRenderer.


Lemma same_size_input_keeps_colours_witness :
  exists w' out,
    make_icon_round (R := box_renderer) base_icon_path "assets/icon.png" 4 sample_world
    = (w', Ok out)
    /\ rgb_of <$> getpixel out (0, 0) = Some (255, 255, 255).
Proof.
  destruct (same_size_input_keeps_colours (R := box_renderer)
              base_icon_path "assets/icon.png" 4 sample_world white4
              ltac:(lia) eq_refl sample_world_has_icon
              (sample_world_assets "assets/icon.png" eq_refl))
    as (w' & out & Hrun & Hpx).
  exists w', out. split; [exact Hrun |]. apply (Hpx 0 0); lia.
Defined.

Lemma make_icon_round_idempotent_witness :
  exists w1 out1 w2 out2,
    make_icon_round (R := box_renderer) base_icon_path "assets/icon.png" 4 sample_world
    = (w1, Ok out1)
    /\ make_icon_round (R := box_renderer) "assets/icon.png" "assets/favicon.png" 4 w1
       = (w2, Ok out2)
    /\ getpixel out2 (0, 0) = getpixel out1 (0, 0).
Proof.
  destruct (make_icon_round_idempotent (R := box_renderer)
              base_icon_path "assets/icon.png" "assets/favicon.png" 4 sample_world white4
              ltac:(lia) sample_world_has_icon
              (sample_world_assets "assets/icon.png" eq_refl)
              (sample_world_assets "assets/favicon.png" eq_refl))
    as (w1 & out1 & w2 & out2 & Hr1 & Hr2 & _ & Hpx).
  exists w1, out1, w2, out2. split; [exact Hr1 |]. split; [exact Hr2 | apply Hpx].
Defined.

Lemma round_icon_alpha_is_binary_witness :
  exists w' out,
    make_icon_round (R := box_renderer) base_icon_path "assets/icon.png" 4 sample_world
    = (w', Ok out)
    /\ (alpha_of <$> getpixel out (3, 0) = Some 0
        \/ alpha_of <$> getpixel out (3, 0) = Some 255).
Proof.
  destruct (round_icon_alpha_is_binary (R := box_renderer)
              base_icon_path "assets/icon.png" 4 sample_world white4
              ltac:(lia) sample_world_has_icon
              (sample_world_assets "assets/icon.png" eq_refl))
    as (w' & out & Hrun & Hpx).
  exists w', out. split; [exact Hrun |]. apply (Hpx 3 0); lia.
Defined.

Lemma main_reports_success_without_source_witness :
  exists w',
    main (R := box_renderer) empty_world = (w', Ok tt)
    /\ files w' = ∅
    /\ stdout w'
       = [ "🔄 Making EduDashPro icons round...";
           "❌ Original icon not found at /home/king/Downloads/edp.png";
           newline +:+ "🎉 All icons are now perfectly round!";
           "🔄 The new round icons will appear after you refresh your browser/app" ].
Proof.
  exact (main_reports_success_without_source (R := box_renderer) empty_world
           (lookup_empty _) (empty_world_has_no_dir _)).
Defined.


Lemma create_all_round_icons_rerun_witness :
  exists w1 w2,
    create_all_round_icons (R := box_renderer) sample_world = (w1, Ok tt)
    /\ create_all_round_icons (R := box_renderer) w1 = (w2, Ok tt)
    /\ files w2 = files w1.
Proof.
  destruct (create_all_round_icons_rerun (R := box_renderer) sample_world white4
              sample_world_has_icon sample_world_has_assets)
    as (w1 & w2 & Hr1 & _ & Hr2 & Hfiles & _).
  exists w1, w2. split; [exact Hr1 |]. split; [exact Hr2 | exact Hfiles].
Defined.

End RoundIconBehaviour.

(** ** Further behaviour of generate-app-icon.py *)

Module GeneratorBehaviour.
Import Pillow OS PillowFacts OSFacts GenerateAppIcon GenerateAppIconFacts.
Local Open Scope script_scope.

Lemma append_empty_r (s : string) : s +:+ "" = s.
Proof.
  induction s as [| c s IH]; [reflexivity |].
  change (String c s +:+ "") with (String c (s +:+ "")). rewrite IH. reflexivity.
Qed.

Lemma append_grows (d : string) c s : d <> d +:+ String c s.
Proof.
  intros E. rewrite <- (append_empty_r d) in E at 1.
  apply append_inj_l in E. discriminate.
Qed.

(** The assets directory is none of the files written into it. *)
Lemma assets_dir_is_no_asset c n :
  starts_with_sep n = false ->
  os_path_join c "assets" <> os_path_join (os_path_join c "assets") n.
Proof.
  intros Hn. rewrite os_path_join_in_assets by exact Hn. apply append_grows.
Qed.

Lemma blocked_world_is_blocked :
  files blocked_world !! os_path_join (cwd blocked_world) "assets" = Some Other.
Proof. apply lookup_singleton_eq. Qed.

(** X10.  Every colour of the gradient is a valid byte triple, and the
    gradient stops short of its nominal end colour: over the 1024 rows the
    red channel stays in 0..9, green in 195..245 and blue in 155..255. *)
Theorem gradient_channels_in_range y :
  0 <= y < 1024 ->
  exists r g b,
    gradient_color 1024 y = (r, g, b)
    /\ 0 <= r <= 9 /\ 195 <= g <= 245 /\ 155 <= b <= 255.
Proof.
  intros Hy. rewrite gradient_color_1024 by lia.
  eexists _, _, _. split; [reflexivity |].
  repeat split.
  - apply Z.div_pos; lia.
  - apply Z.lt_succ_r. apply Z.div_lt_upper_bound; lia.
  - apply Z.div_le_lower_bound; lia.
  - apply Z.lt_succ_r. apply Z.div_lt_upper_bound; lia.
  - apply Z.div_le_lower_bound; lia.
  - apply Z.lt_succ_r. apply Z.div_lt_upper_bound; lia.
Qed.

(** X11.  Down the canvas the gradient only gets darker and redder: from
    one row to a lower one, red does not decrease and green and blue do
    not increase. *)
Theorem gradient_is_monotone y1 y2 :
  0 <= y1 <= y2 ->
  y2 < 1024 ->
  exists r1 g1 b1 r2 g2 b2,
    gradient_color 1024 y1 = (r1, g1, b1)
    /\ gradient_color 1024 y2 = (r2, g2, b2)
    /\ r1 <= r2 /\ g2 <= g1 /\ b2 <= b1.
Proof.
  intros H1 H2. rewrite !gradient_color_1024 by lia.
  eexists _, _, _, _, _, _. split; [reflexivity |]. split; [reflexivity |].
  repeat split; apply Z.div_le_mono; lia.
Qed.

Lemma gradient_channels_in_range_witness :
  exists r g b,
    gradient_color 1024 1023 = (r, g, b)
    /\ 0 <= r <= 9 /\ 195 <= g <= 245 /\ 155 <= b <= 255.
Proof. apply (gradient_channels_in_range 1023). lia. Defined.

Lemma gradient_is_monotone_witness :
  exists r1 g1 b1 r2 g2 b2,
    gradient_color 1024 100 = (r1, g1, b1)
    /\ gradient_color 1024 900 = (r2, g2, b2)
    /\ r1 <= r2 /\ g2 <= g1 /\ b2 <= b1.
Proof. apply (gradient_is_monotone 100 900); lia. Defined.

Section WithRenderer.
Context {R : Renderer}.

(** X13.  When a regular file sits where the assets directory goes,
    [main] raises [FileExistsError] from [os.makedirs]: it has printed its
    opening line and opened the font, and it has written no file, created
    no directory and printed no success line. *)
Theorem main_fails_on_blocked_assets w f :
  files w !! os_path_join (cwd w) "assets" = Some f ->
  exists w',
    main w = (w', Raise FileExistsError)
    /\ files w' = files w
    /\ dirs w' = dirs w
    /\ stdout w' = stdout w ++ ["🎨 Generating custom EduDashPro app icons..."]
    /\ opened w' = opened w ++ [font_path].
Proof.
  intros Hblocked.
  destruct (create_educational_icon_run
              (printed "🎨 Generating custom EduDashPro app icons..." w))
    as (art & _ & _ & Hicon).
  eexists. split.
  - unfold main. unfold bind at 1, print at 1.
    erewrite bind_ok; [| exact Hicon].
    erewrite bind_raise; [reflexivity |].
    unfold save_app_icons. unfold bind at 1, os_getcwd at 1.
    erewrite bind_raise; [reflexivity |].
    unfold os_makedirs. cbn [files log_open printed cwd]. rewrite Hblocked. reflexivity.
  - repeat split; reflexivity.
Qed.

(** Writing the five files twice is writing them once. *)
Lemma write_app_icons_twice c base_image favicon notif fs :
  let d := os_path_join c "assets" in
  write_app_icons d base_image favicon notif (write_app_icons d base_image favicon notif fs)
  = write_app_icons d base_image favicon notif fs.
Proof.
  cbv zeta. apply map_eq. intros p.
  destruct (write_app_icons_lookup c base_image favicon notif fs)
    as (H1 & H2 & H3 & H4 & H5 & Hframe).
  destruct (write_app_icons_lookup c base_image favicon notif
              (write_app_icons (os_path_join c "assets") base_image favicon notif fs))
    as (G1 & G2 & G3 & G4 & G5 & Gframe).
  cbv zeta in *.
  destruct (in_dec String.string_dec p
              (map (os_path_join (os_path_join c "assets"))
                 ["icon.png"; "adaptive-icon.png"; "splash-icon.png";
                  "notification-icon.png"; "favicon.png"])) as [Hp | Hp].
  - cbn [map In] in Hp.
    destruct Hp as [<- | [<- | [<- | [<- | [<- | []]]]]]; congruence.
  - apply Gframe. exact Hp.
Qed.

(** X14.  [save_app_icons] can be run again on the same image: the second
    run finds the directory it made, and leaves the files and directories
    of the first run. *)
Theorem save_app_icons_rerun base_image w :
  files w !! os_path_join (cwd w) "assets" = None ->
  exists w1 w2,
    save_app_icons base_image w = (w1, Ok tt)
    /\ save_app_icons base_image w1 = (w2, Ok tt)
    /\ files w2 = files w1
    /\ dirs w2 = dirs w1.
Proof.
  intros Hfree.
  destruct (save_app_icons_ok base_image w Hfree)
    as (favicon & notif & Hfav & _ & Hnotif & _ & Hrun1).
  eexists _, _. split; [exact Hrun1 |].
  match type of Hrun1 with _ = (?x, _) => set (w1 := x) end.
  assert (Hfree1 : files w1 !! os_path_join (cwd w1) "assets" = None).
  { subst w1. cbn [files cwd].
    destruct (write_app_icons_lookup (cwd w) base_image favicon notif (files w))
      as (_ & _ & _ & _ & _ & Hframe).
    cbv zeta in Hframe. rewrite Hframe; [exact Hfree |].
    cbn [map In]. intros H.
    repeat (destruct H as [H | H];
            [symmetry in H; apply assets_dir_is_no_asset in H;
             [exact H | reflexivity] |]).
    exact H. }
  destruct (save_app_icons_ok base_image w1 Hfree1)
    as (favicon' & notif' & Hfav' & _ & Hnotif' & _ & Hrun2).
  rewrite Hfav in Hfav'. injection Hfav' as <-.
  rewrite Hnotif in Hnotif'. injection Hnotif' as <-.
  split; [exact Hrun2 |].
  subst w1. cbn [files dirs cwd]. split.
  - apply write_app_icons_twice.
  - rewrite (assoc_L (∪)), (union_idemp_L). reflexivity.
Qed.

(** X15.  The notification icon of the generator is white on transparent,
    as its docstring asks: every pixel is either [(0, 0, 0, 0)] or opaque
    white, and the spine (columns 106..114, rows 86..171) is opaque white
    whatever the rounded rectangle covers. *)
Theorem notification_icon_is_white_on_transparent :
  exists notif,
    create_notification_icon = Ok notif
    /\ size notif = (256, 256)
    /\ (forall x y,
          0 <= x < 256 -> 0 <= y < 256 ->
          getpixel notif (x, y) = Some (0, 0, 0, 0)
          \/ getpixel notif (x, y) = Some (255, 255, 255, 255))
    /\ (forall x y,
          106 <= x <= 114 -> 86 <= y <= 171 ->
          getpixel notif (x, y) = Some (255, 255, 255, 255)).
Proof.
  unfold create_notification_icon. cbv zeta. rewrite Image_new_ok by lia.
  eexists. split; [reflexivity |]. split; [reflexivity |]. split.
  - intros x y Hx Hy.
    rewrite getpixel_in by (apply in_bounds_square; auto).
    cbn [at_ rectangle rounded_rectangle paint].
    destruct (rectangle_covers _ x y); [right; reflexivity |].
    destruct (rounded_rectangle_covers _ _ x y); [right | left]; reflexivity.
  - intros x y Hx Hy.
    rewrite getpixel_in by (apply in_bounds_square; lia).
    cbn [at_ rectangle paint].
    assert (Hc : rectangle_covers
                   (256 / 2 - 256 / 2 / 2 + 256 / 2 / 3, 256 / 2 - 256 / 3 / 2,
                    256 / 2 - 256 / 2 / 2 + 256 / 2 / 3 + 256 / 32,
                    256 / 2 - 256 / 3 / 2 + 256 / 3) x y = true).
    { unfold rectangle_covers. rewrite !andb_true_iff, !Z.leb_le.
      change (256 / 2 - 256 / 2 / 2 + 256 / 2 / 3) with 106.
      change (256 / 2 - 256 / 3 / 2) with 86.
      change (106 + 256 / 32) with 114. change (86 + 256 / 3) with 171. lia. }
    rewrite Hc. reflexivity.
Qed.

End WithRenderer.

Lemma main_fails_on_blocked_assets_witness :
  exists w',
    main (R := box_renderer) blocked_world = (w', Raise FileExistsError)
    /\ files w' = files blocked_world
    /\ stdout w' = ["🎨 Generating custom EduDashPro app icons..."].
Proof.
  destruct (main_fails_on_blocked_assets (R := box_renderer) blocked_world Other
              blocked_world_is_blocked)
    as (w' & Hrun & Hfiles & _ & Hout & _).
  exists w'. split; [exact Hrun |]. split; [exact Hfiles | exact Hout].
Defined.

Lemma save_app_icons_rerun_witness :
  exists w1 w2,
    save_app_icons (R := box_renderer) MakeRoundIcon.white4 bare_world = (w1, Ok tt)
    /\ save_app_icons (R := box_renderer) MakeRoundIcon.white4 w1 = (w2, Ok tt)
    /\ files w2 = files w1.
Proof.
  destruct (save_app_icons_rerun (R := box_renderer) MakeRoundIcon.white4 bare_world
              (lookup_empty _))
    as (w1 & w2 & Hr1 & Hr2 & Hfiles & _).
  exists w1, w2. split; [exact Hr1 |]. split; [exact Hr2 | exact Hfiles].
Defined.

Lemma notification_icon_is_white_on_transparent_witness :
  exists notif,
    create_notification_icon (R := box_renderer) = Ok notif
    /\ getpixel notif (110, 100) = Some (255, 255, 255, 255)
    /\ (getpixel notif (0, 0) = Some (0, 0, 0, 0)
        \/ getpixel notif (0, 0) = Some (255, 255, 255, 255)).
Proof.
  destruct (notification_icon_is_white_on_transparent (R := box_renderer))
    as (notif & Hrun & _ & Hpalette & Hspine).
  exists notif. split; [exact Hrun |]. split.
  - apply Hspine; lia.
  - apply Hpalette; lia.
Defined.

End GeneratorBehaviour.
